(** * ISPnubMod firmware: the supervisory loop of [main.c]

    A shallow embedding of [main()] and of the two wake interrupt handlers of
    [src/main.c].  The firmware talks to its collaborators (clock, debounce,
    cycle counter, script engine, hardware abstraction, AVR sleep/interrupt
    primitives) through function calls only; none of them is defined in
    [main.c].  A piece of firmware is therefore embedded as a finite tree of
    calls ([Prog]): every node is one call made by the C code, and the
    continuation receives what the call returned.  A [handler] gives the calls
    a meaning over an arbitrary world; every theorem below quantifies over the
    handler and the world, so it holds whatever the collaborators answer. *)

From Stdlib Require Import ZArith List Bool Lia.
Import ListNotations.
Local Open Scope Z_scope.

(** ** Machine integers *)

(** Storing a value into a [uint8_t] variable keeps its low eight bits. *)
Definition to_uint8 (v : Z) : Z := v mod 256.

(** C's logical negation [!v] on an integer. *)
Definition c_not (v : Z) : Z := if v =? 0 then 1 else 0.

(** ** Names that [main.c] takes from its headers *)

(** The values [state] ranges over ([S_...] of [main.h]).  The two [switch]
    statements of the loop have a case for each of them and no default. *)
Inductive state_t : Type :=
| S_INIT
| S_WAKEUP
| S_IDLE
| S_PROGRAMMING
| S_NO_MORE
| S_NO_PROGRAM
| S_SLEEP.

Definition state_eqb (a b : state_t) : bool :=
  match a, b with
  | S_INIT, S_INIT | S_WAKEUP, S_WAKEUP | S_IDLE, S_IDLE
  | S_PROGRAMMING, S_PROGRAMMING | S_NO_MORE, S_NO_MORE
  | S_NO_PROGRAM, S_NO_PROGRAM | S_SLEEP, S_SLEEP => true
  | _, _ => false
  end.

(** Argument of [set_sleep_mode] ([avr/sleep.h]). *)
Inductive sleep_mode_t : Type := SLEEP_MODE_PWR_DOWN.

(** Macros of [clock.h], [hal.h] and [main.h] that [main.c] uses.  Their
    values are not fixed by [main.c]; the embedding takes them as a
    parameter. *)
Record BuildConfig : Type := {
  CLOCK_TICKER_SLOW_250MS : Z;
  CLOCK_TICKER_FAST_10MS : Z;
  CLOCK_TICKER_SLOW_8S : Z;
  IO_SWITCH : Z;
  IO_EXT_SWITCH : Z;
  COMPATIBILITY_MODE_ISPNUB_ORIGINAL : Z;
  DONT_USE_YELLOW_LED : Z;
  HAS_DYNAMIC_BOD_CONTROL : Z
}.

(** ** Calls made by [main.c] *)

(** Modelled from the spec: the headers that declare these functions
    ([hal.h], [clock.h], [counter.h], [script.h], [debounce.h] and the AVR
    ones) are not part of the sources, so the type of what a call yields
    follows the interface table of the specification and the use [main.c]
    makes of the result.  Tick counters, tick deltas, the press flag and the
    outcome of the script engine are integers: [main.c] stores them in a
    [uint8_t] or compares them with a constant.  The remaining-cycle counter
    is an unsigned count.  There is one constructor per function or macro
    called in [main.c], indexed by the type of what the call yields. *)
Inductive Call : Type -> Type :=
| hal_init : Call unit
| clock_init : Call unit
| set_sleep_mode (m : sleep_mode_t) : Call unit
| clock_getTickerFast : Call Z
| clock_getTickerSlow : Call Z
| clock_getTickerFastDiff (ticker : Z) : Call Z
| clock_getTickerSlowDiff (ticker : Z) : Call Z
| tickDebounce : Call unit
| get_key_press (key_mask : Z) : Call Z
| counter_read : Call N
| script_run : Call Z
| hal_setBuzzer (v : Z) : Call unit
| hal_setLEDgreen (v : Z) : Call unit
| hal_setLEDyellow (v : Z) : Call unit
| hal_setLEDred (v : Z) : Call unit
| hal_enableINT0 : Call unit
| hal_enableINT1 : Call unit
| hal_disableINT0 : Call unit
| hal_disableINT1 : Call unit
| sleep_enable : Call unit
| sleep_bod_disable : Call unit
| sleep_cpu : Call unit
| sleep_disable : Call unit
| sei : Call unit
| cli : Call unit.

(** A call with its result type forgotten: what a trace records. *)
Inductive Event : Type :=
| Ev {T : Type} (c : Call T).

(** ** Programs *)

Inductive Prog (A : Type) : Type :=
| Ret (a : A)
| Vis {T : Type} (c : Call T) (k : T -> Prog A).

Arguments Ret {A} a.
Arguments Vis {A T} c k.

Fixpoint bind {A B : Type} (p : Prog A) (f : A -> Prog B) : Prog B :=
  match p with
  | Ret a => f a
  | Vis c k => Vis c (fun t => bind (k t) f)
  end.

Definition call {T : Type} (c : Call T) : Prog T := Vis c (fun t => Ret t).

Declare Scope prog_scope.
Delimit Scope prog_scope with prog.
Notation "x <- p ;; q" := (bind p (fun x => q))
  (at level 61, p at next level, right associativity) : prog_scope.
Notation "p ;; q" := (bind p (fun _ => q))
  (at level 61, right associativity) : prog_scope.
Local Open Scope prog_scope.

(** ** Running a program against a world *)

Definition handler (W : Type) : Type := forall T : Type, Call T -> W -> T * W.

(** What call [c] yields in world [w], and the world it leaves. *)
Definition answer {W T} (h : handler W) (c : Call T) (w : W) : T := fst (h T c w).
Definition after {W T} (h : handler W) (c : Call T) (w : W) : W := snd (h T c w).

(** [run h p w] performs the calls of [p] in order; it returns the result of
    [p], the final world and the calls made, oldest first. *)
Fixpoint run {W A : Type} (h : handler W) (p : Prog A) (w : W)
  : A * W * list Event :=
  match p with
  | Ret a => (a, w, [])
  | Vis c k =>
      let r := run h (k (answer h c w)) (after h c w) in
      (fst (fst r), snd (fst r), Ev c :: snd r)
  end.

Definition result {W A} (h : handler W) (p : Prog A) (w : W) : A :=
  fst (fst (run h p w)).
Definition world_after {W A} (h : handler W) (p : Prog A) (w : W) : W :=
  snd (fst (run h p w)).
Definition trace {W A} (h : handler W) (p : Prog A) (w : W) : list Event :=
  snd (run h p w).

(** ** The local variables of [main] *)

Record Locals : Type := {
  ticker10MS : Z;
  ticker250MS : Z;
  sleeptimer : Z;
  success : Z;
  buzzer : Z;
  toggle250MS : Z;
  state : state_t
}.

Definition set_ticker10MS (v : Z) (l : Locals) : Locals :=
  {| ticker10MS := to_uint8 v; ticker250MS := ticker250MS l;
     sleeptimer := sleeptimer l; success := success l; buzzer := buzzer l;
     toggle250MS := toggle250MS l; state := state l |}.

Definition set_ticker250MS (v : Z) (l : Locals) : Locals :=
  {| ticker10MS := ticker10MS l; ticker250MS := to_uint8 v;
     sleeptimer := sleeptimer l; success := success l; buzzer := buzzer l;
     toggle250MS := toggle250MS l; state := state l |}.

Definition set_sleeptimer (v : Z) (l : Locals) : Locals :=
  {| ticker10MS := ticker10MS l; ticker250MS := ticker250MS l;
     sleeptimer := to_uint8 v; success := success l; buzzer := buzzer l;
     toggle250MS := toggle250MS l; state := state l |}.

Definition set_success (v : Z) (l : Locals) : Locals :=
  {| ticker10MS := ticker10MS l; ticker250MS := ticker250MS l;
     sleeptimer := sleeptimer l; success := to_uint8 v; buzzer := buzzer l;
     toggle250MS := toggle250MS l; state := state l |}.

Definition set_buzzer (v : Z) (l : Locals) : Locals :=
  {| ticker10MS := ticker10MS l; ticker250MS := ticker250MS l;
     sleeptimer := sleeptimer l; success := success l; buzzer := to_uint8 v;
     toggle250MS := toggle250MS l; state := state l |}.

Definition set_toggle250MS (v : Z) (l : Locals) : Locals :=
  {| ticker10MS := ticker10MS l; ticker250MS := ticker250MS l;
     sleeptimer := sleeptimer l; success := success l; buzzer := buzzer l;
     toggle250MS := to_uint8 v; state := state l |}.

Definition set_state (s : state_t) (l : Locals) : Locals :=
  {| ticker10MS := ticker10MS l; ticker250MS := ticker250MS l;
     sleeptimer := sleeptimer l; success := success l; buzzer := buzzer l;
     toggle250MS := toggle250MS l; state := s |}.

(** Every [uint8_t] variable holds a value of its type. *)
Definition uint8 (v : Z) : Prop := 0 <= v < 256.

Definition locals_ok (l : Locals) : Prop :=
  uint8 (ticker10MS l) /\ uint8 (ticker250MS l) /\ uint8 (sleeptimer l) /\
  uint8 (success l) /\ uint8 (buzzer l) /\ uint8 (toggle250MS l).

(** ** [main]: the loop body, section by section (main.c, lines 96-276) *)

Section Firmware.

Variable cfg : BuildConfig.

(** [//slow ticks], lines 99-104. *)
Definition slow_ticks (l : Locals) : Prog Locals :=
  d <- call (clock_getTickerSlowDiff (ticker250MS l)) ;;
  if d >? CLOCK_TICKER_SLOW_250MS cfg then
    t <- call clock_getTickerSlow ;;
    let l := set_ticker250MS t l in
    let l := set_toggle250MS (c_not (toggle250MS l)) l in
    Ret l
  else Ret l.

(** [//fast ticks], lines 106-114. *)
Definition fast_ticks (l : Locals) : Prog Locals :=
  d <- call (clock_getTickerFastDiff (ticker10MS l)) ;;
  if d >? CLOCK_TICKER_FAST_10MS cfg then
    t <- call clock_getTickerFast ;;
    let l := set_ticker10MS t l in
    call tickDebounce ;;
    let l := if buzzer l >? 0 then set_buzzer (buzzer l - 1) l else l in
    Ret l
  else Ret l.

(** [//buzzer], lines 116-121. *)
Definition buzzer_output (l : Locals) : Prog unit :=
  if buzzer l =? 0 then call (hal_setBuzzer 0) else call (hal_setBuzzer 1).

(** The two arms of the [#if] of lines 150-156. *)
Definition programming_leds : Prog unit :=
  if (COMPATIBILITY_MODE_ISPNUB_ORIGINAL cfg =? 1)
     || (DONT_USE_YELLOW_LED cfg =? 1)
  then call (hal_setLEDyellow 0) ;; call (hal_setLEDred 1)
  else call (hal_setLEDyellow 1) ;; call (hal_setLEDred 0).

(** [//led signaling], first [switch(state)], lines 122-181. *)
Definition led_signaling (l : Locals) : Prog unit :=
  match state l with
  | S_INIT | S_WAKEUP =>
      call (hal_setLEDgreen 1) ;;
      call (hal_setLEDyellow 0) ;;
      call (hal_setLEDred 0) ;;
      call (hal_setBuzzer 0)
  | S_IDLE =>
      if success l =? 1 then
        call (hal_setLEDgreen 1) ;;
        call (hal_setLEDyellow 0) ;;
        call (hal_setLEDred 0)
      else
        call (hal_setLEDgreen 0) ;;
        call (hal_setLEDyellow 0) ;;
        call (hal_setLEDred (toggle250MS l))
  | S_PROGRAMMING =>
      call (hal_setLEDgreen 0) ;;
      programming_leds
  | S_NO_MORE =>
      call (hal_setLEDgreen (toggle250MS l)) ;;
      call (hal_setLEDyellow 0) ;;
      call (hal_setLEDred (toggle250MS l))
  | S_NO_PROGRAM =>
      call (hal_setLEDgreen (c_not (toggle250MS l))) ;;
      call (hal_setLEDyellow 0) ;;
      call (hal_setLEDred (toggle250MS l))
  | S_SLEEP =>
      call (hal_setLEDgreen 0) ;;
      call (hal_setLEDyellow 0) ;;
      call (hal_setLEDred 0) ;;
      call (hal_setBuzzer 0)
  end.

(** The condition of line 202: [||] evaluates its right operand only when
    the left one is zero. *)
Definition any_key_press : Prog bool :=
  k <- call (get_key_press (Z.shiftl 1 (IO_SWITCH cfg))) ;;
  if k =? 0 then
    k' <- call (get_key_press (Z.shiftl 1 (IO_EXT_SWITCH cfg))) ;;
    Ret (negb (k' =? 0))
  else Ret true.

(** The body of [case S_SLEEP], lines 240-263. *)
Definition sleep_and_wake (l : Locals) : Prog Locals :=
  call hal_enableINT0 ;;
  call hal_enableINT1 ;;
  call sleep_enable ;;
  (if HAS_DYNAMIC_BOD_CONTROL cfg =? 1 then call sleep_bod_disable
   else Ret tt) ;;
  call sei ;;
  call sleep_cpu ;;
  call sleep_disable ;;
  t <- call clock_getTickerSlow ;;
  let l := set_sleeptimer t l in
  let l := set_state S_WAKEUP l in
  Ret l.

(** [//processing], second [switch(state)], lines 185-264. *)
Definition processing (l : Locals) : Prog Locals :=
  match state l with
  | S_INIT | S_WAKEUP =>
      c <- call counter_read ;;
      let l := if (c =? 0)%N then set_state S_NO_MORE l else l in
      let l := set_state S_IDLE l in
      Ret l
  | S_IDLE =>
      pressed <- any_key_press ;;
      if pressed then
        t <- call clock_getTickerSlow ;;
        let l := set_sleeptimer t l in
        c <- call counter_read ;;
        if (0 <? c)%N then
          Ret (set_state S_PROGRAMMING l)
        else
          let l := set_buzzer 60 l in
          Ret (set_state S_NO_MORE l)
      else Ret l
  | S_PROGRAMMING =>
      r <- call script_run ;;
      let l := set_success r l in
      let l :=
        if success l =? 1 then
          set_state S_IDLE (set_buzzer 3 l)
        else if success l =? 0 then
          set_state S_IDLE (set_buzzer 30 l)
        else
          set_state S_NO_PROGRAM (set_buzzer 60 l) in
      t <- call clock_getTickerSlow ;;
      Ret (set_sleeptimer t l)
  | S_NO_MORE | S_NO_PROGRAM => Ret l
  | S_SLEEP => sleep_and_wake l
  end.

(** [//go to sleep?], lines 267-273. *)
Definition go_to_sleep (l : Locals) : Prog Locals :=
  call cli ;;
  d <- call (clock_getTickerSlowDiff (sleeptimer l)) ;;
  if d >? CLOCK_TICKER_SLOW_8S cfg then
    Ret (set_state S_SLEEP l)
  else
    call sei ;;
    Ret l.

(** The part of the loop body that renders the outputs (lines 116-181). *)
Definition signaling (l : Locals) : Prog unit :=
  buzzer_output l ;;
  led_signaling l.

(** The tick bookkeeping that opens the loop body (lines 99-114). *)
Definition tick_bookkeeping (l : Locals) : Prog Locals :=
  l <- slow_ticks l ;;
  fast_ticks l.

(** The loop body up to and including the second [switch]. *)
Definition body_before_sleep_check (l : Locals) : Prog Locals :=
  l <- tick_bookkeeping l ;;
  signaling l ;;
  processing l.

(** One pass through the body of [while (1)]. *)
Definition iteration (l : Locals) : Prog Locals :=
  l <- body_before_sleep_check l ;;
  go_to_sleep l.

(** Lines 76-93: initialisation up to the first [sei()]. *)
Definition main_init : Prog Locals :=
  call hal_init ;;
  call clock_init ;;
  call (set_sleep_mode SLEEP_MODE_PWR_DOWN) ;;
  f <- call clock_getTickerFast ;;
  s <- call clock_getTickerSlow ;;
  s' <- call clock_getTickerSlow ;;
  let l := {| ticker10MS := to_uint8 f; ticker250MS := to_uint8 s;
              sleeptimer := to_uint8 s'; success := 1; buzzer := 0;
              toggle250MS := 0; state := S_INIT |} in
  call sei ;;
  Ret l.

(** [while (1)] never exits; [loop n] is its first [n] passes. *)
Fixpoint loop (n : nat) (l : Locals) : Prog Locals :=
  match n with
  | O => Ret l
  | S n' => l' <- iteration l ;; loop n' l'
  end.

(** [main] cut after [n] passes of the loop. *)
Definition main (n : nat) : Prog Locals :=
  l <- main_init ;;
  loop n l.

End Firmware.

(** ** The interrupt handlers (main.c, lines 282-288) *)

Definition ISR_INT1_vect : Prog unit := call hal_disableINT1.

Definition ISR_INT0_vect : Prog unit := call hal_disableINT0.

(** The processor state an interrupt can meet: the locals of [main], which
    live in [main]'s frame, and the world outside. *)
Record Machine (W : Type) : Type := {
  frame : Locals;
  world : W
}.
Arguments frame {W} m.
Arguments world {W} m.

(** Taking an interrupt runs its handler against the world; the handler has
    no name for anything in [main]'s frame. *)
Definition take_interrupt {W} (h : handler W) (isr : Prog unit) (m : Machine W)
  : Machine W * list Event :=
  ({| frame := frame m; world := world_after h isr (world m) |},
   trace h isr (world m)).

(** ** The outputs driven through the hardware abstraction *)

(** Modelled from the spec: [hal.h], [avr/interrupt.h] and [avr/sleep.h] are
    not part of the sources; the spec describes their operations as LED and
    buzzer setters, interrupt arm and disarm and sleep-mode entry, each
    fire-and-forget and immediate.  A setter called with a nonzero argument
    drives its output on, with zero it drives it off. *)
Record Outputs : Type := {
  led_green : bool;
  led_yellow : bool;
  led_red : bool;
  buzzer_on : bool;
  int0_enabled : bool;
  int1_enabled : bool;
  sleep_enabled : bool;
  irq_enabled : bool
}.

Definition all_off : Outputs :=
  {| led_green := false; led_yellow := false; led_red := false;
     buzzer_on := false; int0_enabled := false; int1_enabled := false;
     sleep_enabled := false; irq_enabled := false |}.

Definition level (v : Z) : bool := negb (v =? 0).

Definition with_led_green (b : bool) (o : Outputs) : Outputs :=
  {| led_green := b; led_yellow := led_yellow o; led_red := led_red o;
     buzzer_on := buzzer_on o; int0_enabled := int0_enabled o;
     int1_enabled := int1_enabled o; sleep_enabled := sleep_enabled o;
     irq_enabled := irq_enabled o |}.

Definition with_led_yellow (b : bool) (o : Outputs) : Outputs :=
  {| led_green := led_green o; led_yellow := b; led_red := led_red o;
     buzzer_on := buzzer_on o; int0_enabled := int0_enabled o;
     int1_enabled := int1_enabled o; sleep_enabled := sleep_enabled o;
     irq_enabled := irq_enabled o |}.

Definition with_led_red (b : bool) (o : Outputs) : Outputs :=
  {| led_green := led_green o; led_yellow := led_yellow o; led_red := b;
     buzzer_on := buzzer_on o; int0_enabled := int0_enabled o;
     int1_enabled := int1_enabled o; sleep_enabled := sleep_enabled o;
     irq_enabled := irq_enabled o |}.

Definition with_buzzer_on (b : bool) (o : Outputs) : Outputs :=
  {| led_green := led_green o; led_yellow := led_yellow o;
     led_red := led_red o; buzzer_on := b; int0_enabled := int0_enabled o;
     int1_enabled := int1_enabled o; sleep_enabled := sleep_enabled o;
     irq_enabled := irq_enabled o |}.

Definition with_int0_enabled (b : bool) (o : Outputs) : Outputs :=
  {| led_green := led_green o; led_yellow := led_yellow o;
     led_red := led_red o; buzzer_on := buzzer_on o; int0_enabled := b;
     int1_enabled := int1_enabled o; sleep_enabled := sleep_enabled o;
     irq_enabled := irq_enabled o |}.

Definition with_int1_enabled (b : bool) (o : Outputs) : Outputs :=
  {| led_green := led_green o; led_yellow := led_yellow o;
     led_red := led_red o; buzzer_on := buzzer_on o;
     int0_enabled := int0_enabled o; int1_enabled := b;
     sleep_enabled := sleep_enabled o; irq_enabled := irq_enabled o |}.

Definition with_sleep_enabled (b : bool) (o : Outputs) : Outputs :=
  {| led_green := led_green o; led_yellow := led_yellow o;
     led_red := led_red o; buzzer_on := buzzer_on o;
     int0_enabled := int0_enabled o; int1_enabled := int1_enabled o;
     sleep_enabled := b; irq_enabled := irq_enabled o |}.

Definition with_irq_enabled (b : bool) (o : Outputs) : Outputs :=
  {| led_green := led_green o; led_yellow := led_yellow o;
     led_red := led_red o; buzzer_on := buzzer_on o;
     int0_enabled := int0_enabled o; int1_enabled := int1_enabled o;
     sleep_enabled := sleep_enabled o; irq_enabled := b |}.

Definition hal_effect (e : Event) (o : Outputs) : Outputs :=
  match e with
  | Ev c =>
      match c with
      | hal_setLEDgreen v => with_led_green (level v) o
      | hal_setLEDyellow v => with_led_yellow (level v) o
      | hal_setLEDred v => with_led_red (level v) o
      | hal_setBuzzer v => with_buzzer_on (level v) o
      | hal_enableINT0 => with_int0_enabled true o
      | hal_disableINT0 => with_int0_enabled false o
      | hal_enableINT1 => with_int1_enabled true o
      | hal_disableINT1 => with_int1_enabled false o
      | sleep_enable => with_sleep_enabled true o
      | sleep_disable => with_sleep_enabled false o
      | sei => with_irq_enabled true o
      | cli => with_irq_enabled false o
      | _ => o
      end
  end.

(** The outputs left by a sequence of calls, oldest first. *)
Definition outputs_after (tr : list Event) (o : Outputs) : Outputs :=
  fold_left (fun o e => hal_effect e o) tr o.

(** The world reached by answering a sequence of calls, oldest first. *)
Fixpoint play {W} (h : handler W) (tr : list Event) (w : W) : W :=
  match tr with
  | [] => w
  | Ev c :: tr' => play h tr' (after h c w)
  end.

(** ** A world that replays recorded answers *)

(** The world is the list of answers still to give.  Every call that yields a
    value takes the next one (zero once the list is used up); the other calls
    leave the list alone. *)
Definition next_answer (w : list Z) : Z * list Z :=
  match w with
  | [] => (0, [])
  | v :: w' => (v, w')
  end.

Definition replay : handler (list Z) :=
  fun T c w =>
    match c in Call T return T * list Z with
    | clock_getTickerFast => next_answer w
    | clock_getTickerSlow => next_answer w
    | clock_getTickerFastDiff _ => next_answer w
    | clock_getTickerSlowDiff _ => next_answer w
    | get_key_press _ => next_answer w
    | script_run => next_answer w
    | counter_read => (Z.to_N (fst (next_answer w)), snd (next_answer w))
    | _ => (tt, w)
    end.

(** Sample macro values for the worked examples: a slow ticker of about
    32.8 ms and a fast ticker of 128 us per count, yellow LED in use. *)
Definition bench_config : BuildConfig :=
  {| CLOCK_TICKER_SLOW_250MS := 7;
     CLOCK_TICKER_FAST_10MS := 78;
     CLOCK_TICKER_SLOW_8S := 244;
     IO_SWITCH := 2;
     IO_EXT_SWITCH := 3;
     COMPATIBILITY_MODE_ISPNUB_ORIGINAL := 0;
     DONT_USE_YELLOW_LED := 0;
     HAS_DYNAMIC_BOD_CONTROL := 1 |}.

(** Locals as [main] has them on entering the loop, in a given mode. *)
Definition fresh_locals (s : state_t) : Locals :=
  {| ticker10MS := 0; ticker250MS := 0; sleeptimer := 0; success := 1;
     buzzer := 0; toggle250MS := 0; state := s |}.

(** ** Readings of the specification that the code is compared with *)

(** The buzzer rule as the specification words it: the output follows the
    countdown in every mode, except that it is off in SLEEP. *)
Definition spec_buzzer_output (l : Locals) : bool :=
  if state_eqb (state l) S_SLEEP then false else negb (buzzer l =? 0).

(** ** Auxiliary notions for the statements *)

(** Calls that drive an LED or the buzzer. *)
Definition signal_setter (e : Event) : bool :=
  match e with
  | Ev c =>
      match c with
      | hal_setLEDgreen _ | hal_setLEDyellow _ | hal_setLEDred _
      | hal_setBuzzer _ => true
      | _ => false
      end
  end.

Definition drives_no_signal (tr : list Event) : bool :=
  forallb (fun e => negb (signal_setter e)) tr.

(** The four signal outputs of an [Outputs] value. *)
Definition signals (o : Outputs) : bool * bool * bool * bool :=
  (led_green o, led_yellow o, led_red o, buzzer_on o).

(** The firmware up to the rendering of the pass that follows [n] complete
    passes of the loop. *)
Definition main_until_render (cfg : BuildConfig) (n : nat) : Prog Locals :=
  l <- main cfg n ;;
  l <- tick_bookkeeping cfg l ;;
  signaling cfg l ;;
  Ret l.

(** The locals with which a pass reaches its two [switch] statements, the
    world in which it renders and the world in which it runs the second
    [switch]. *)
Definition after_ticks {W} (h : handler W) (cfg : BuildConfig)
    (l : Locals) (w : W) : Locals :=
  result h (tick_bookkeeping cfg l) w.

Definition world_at_render {W} (h : handler W) (cfg : BuildConfig)
    (l : Locals) (w : W) : W :=
  world_after h (tick_bookkeeping cfg l) w.

Definition world_at_processing {W} (h : handler W) (cfg : BuildConfig)
    (l : Locals) (w : W) : W :=
  world_after h (signaling cfg (after_ticks h cfg l w))
    (world_at_render h cfg l w).

(** Running [p'] is running [p], with [success] replaced in the result. *)
Definition carries {W} (h : handler W) (v : Z) (p' p : Prog Locals) : Prop :=
  forall w : W,
    run h p' w =
    (set_success v (result h p w), world_after h p w, trace h p w).

(** Locals of a pass that starts in WAKEUP while the countdown still runs. *)
Definition wakeup_buzzing : Locals :=
  {| ticker10MS := 0; ticker250MS := 0; sleeptimer := 0; success := 1;
     buzzer := 5; toggle250MS := 0; state := S_WAKEUP |}.

(** Answers of the collaborators for a session from reset: the counter reads
    5, the primary switch is pressed in the second pass, the script engine
    returns [outcome] in the third, the inactivity time-out is reached in the
    fourth, the device sleeps in the fifth and wakes up; all other answers
    (no tick elapsed, no key pressed) are zero. *)
Definition session (outcome : Z) : list Z :=
  [0; 0; 0]                       (* reset: fast ticker, slow ticker twice *)
  ++ [0; 0; 5; 0]                 (* pass 1, INIT: counter_read = 5 *)
  ++ [0; 0; 1; 0; 5; 0]           (* pass 2, IDLE: key press, counter 5 *)
  ++ [0; 0; outcome; 0; 0]        (* pass 3, PROGRAMMING: script_run *)
  ++ [0; 0; 0; 0; 245]            (* pass 4, IDLE: 245 slow ticks idle *)
  ++ [0; 0; 0; 0]                 (* pass 5, SLEEP: woken, time-out reset *)
  ++ [8; 0; 0; 5; 0].             (* pass 6, WAKEUP: a slow tick elapsed *)

(** ** Notions for the further properties of the loop *)

(** The modes a pass of the loop can end in, by the mode it starts in: what
    the second [switch] assigns, and SLEEP from the sleep check. *)
Definition may_follow (a b : state_t) : bool :=
  match a, b with
  | S_INIT, (S_IDLE | S_SLEEP) => true
  | S_WAKEUP, (S_IDLE | S_SLEEP) => true
  | S_IDLE, (S_IDLE | S_PROGRAMMING | S_NO_MORE | S_SLEEP) => true
  | S_PROGRAMMING, (S_IDLE | S_NO_PROGRAM | S_SLEEP) => true
  | S_NO_MORE, (S_NO_MORE | S_SLEEP) => true
  | S_NO_PROGRAM, (S_NO_PROGRAM | S_SLEEP) => true
  | S_SLEEP, (S_WAKEUP | S_SLEEP) => true
  | _, _ => false
  end.

Definition all_states : list state_t :=
  [S_INIT; S_WAKEUP; S_IDLE; S_PROGRAMMING; S_NO_MORE; S_NO_PROGRAM; S_SLEEP].

(** Kinds of call. *)
Definition polls_key (e : Event) : bool :=
  match e with Ev c => match c with get_key_press _ => true | _ => false end end.

Definition runs_script (e : Event) : bool :=
  match e with Ev c => match c with script_run => true | _ => false end end.

Definition halts_cpu (e : Event) : bool :=
  match e with Ev c => match c with sleep_cpu => true | _ => false end end.

Definition advances_debounce (e : Event) : bool :=
  match e with Ev c => match c with tickDebounce => true | _ => false end end.

Definition enables_irq (e : Event) : bool :=
  match e with Ev c => match c with sei => true | _ => false end end.

(** How many calls of a kind a trace holds. *)
Definition count_calls (p : Event -> bool) (tr : list Event) : nat :=
  length (filter p tr).

(** The outcome of the sleep check of the pass that starts with locals [l] in
    world [w] (the condition of line 269). *)
Definition sleep_check_fires {W} (h : handler W) (cfg : BuildConfig)
    (l : Locals) (w : W) : bool :=
  answer h
    (clock_getTickerSlowDiff
       (sleeptimer (result h (body_before_sleep_check cfg l) w)))
    (after h cli (world_after h (body_before_sleep_check cfg l) w))
  >? CLOCK_TICKER_SLOW_8S cfg.

(** What the loop relies on when it refreshes [sleeptimer]: a reference just
    read from the slow ticker is not yet CLOCK_TICKER_SLOW_8S old when the
    sleep check of the same pass asks for its age, that is after [cli], with
    at most a read of the cycle counter in between. *)
Definition fresh_reference_not_stale {W} (h : handler W) (cfg : BuildConfig)
  : Prop :=
  forall w : W,
    let ref := to_uint8 (answer h clock_getTickerSlow w) in
    let w1 := after h clock_getTickerSlow w in
    answer h (clock_getTickerSlowDiff ref) (after h cli w1)
      <= CLOCK_TICKER_SLOW_8S cfg /\
    answer h (clock_getTickerSlowDiff ref)
      (after h cli (after h counter_read w1))
      <= CLOCK_TICKER_SLOW_8S cfg.

(** ** A world with a free-running slow ticker *)

(** Modelled from the spec: [clock.h] is not part of the sources; the spec
    gives the tickers as monotonic counters and the deltas as elapsed ticks
    since a snapshot, correct across wrap-around.  The world is the number of
    slow ticks since power-on.  Time passes while the script engine runs (300
    ticks) and while the processor sleeps (1000 ticks); the fast ticker is
    not modelled (no fast tick elapses), the primary switch is always
    reported pressed, the cycle counter reads 5 and the script engine
    succeeds. *)
Definition wall_clock : handler Z :=
  fun T c w =>
    match c in Call T return T * Z with
    | clock_getTickerSlow => (w mod 256, w)
    | clock_getTickerSlowDiff ref => ((w - ref) mod 256, w)
    | clock_getTickerFast => (0, w)
    | clock_getTickerFastDiff _ => (0, w)
    | get_key_press _ => (1, w)
    | counter_read => (5%N, w)
    | script_run => (1, w + 300)
    | sleep_cpu => (tt, w + 1000)
    | _ => (tt, w)
    end.

(** * Properties *)

(** ** Running sequenced programs *)

Section RunFacts.

Context {W : Type} (h : handler W).

Lemma run_bind {A B} (p : Prog A) (f : A -> Prog B) (w : W) :
  run h (bind p f) w =
  (result h (f (result h p w)) (world_after h p w),
   world_after h (f (result h p w)) (world_after h p w),
   trace h p w ++ trace h (f (result h p w)) (world_after h p w)).
Proof.
  unfold result, world_after, trace.
  revert w; induction p as [a | T c k IH]; intros w; simpl.
  - now destruct (run h (f a) w) as [[b w'] tr].
  - now rewrite IH.
Qed.

Lemma result_bind {A B} (p : Prog A) (f : A -> Prog B) (w : W) :
  result h (bind p f) w = result h (f (result h p w)) (world_after h p w).
Proof. unfold result at 1; now rewrite run_bind. Qed.

Lemma world_after_bind {A B} (p : Prog A) (f : A -> Prog B) (w : W) :
  world_after h (bind p f) w =
  world_after h (f (result h p w)) (world_after h p w).
Proof. unfold world_after at 1; now rewrite run_bind. Qed.

Lemma trace_bind {A B} (p : Prog A) (f : A -> Prog B) (w : W) :
  trace h (bind p f) w =
  trace h p w ++ trace h (f (result h p w)) (world_after h p w).
Proof. unfold trace at 1; now rewrite run_bind. Qed.

Lemma result_call {T} (c : Call T) (w : W) :
  result h (call c) w = answer h c w.
Proof. reflexivity. Qed.

Lemma world_after_call {T} (c : Call T) (w : W) :
  world_after h (call c) w = after h c w.
Proof. reflexivity. Qed.

Lemma trace_call {T} (c : Call T) (w : W) : trace h (call c) w = [Ev c].
Proof. reflexivity. Qed.

(** The final world is the initial one after the calls of the trace. *)
Lemma world_after_play {A} (p : Prog A) (w : W) :
  world_after h p w = play h (trace h p w) w.
Proof.
  unfold world_after, trace.
  revert w; induction p as [a | T c k IH]; intros w; simpl; auto.
Qed.

End RunFacts.

Lemma outputs_after_app (t1 t2 : list Event) (o : Outputs) :
  outputs_after (t1 ++ t2) o = outputs_after t2 (outputs_after t1 o).
Proof. apply fold_left_app. Qed.

(** ** Machine integers *)

Lemma to_uint8_range (v : Z) : uint8 (to_uint8 v).
Proof. unfold uint8, to_uint8. apply Z.mod_pos_bound. lia. Qed.

Lemma to_uint8_small (v : Z) : uint8 v -> to_uint8 v = v.
Proof. unfold uint8, to_uint8. intros Hv. now apply Z.mod_small. Qed.

Lemma c_not_range (v : Z) : uint8 (c_not v).
Proof. unfold c_not, uint8. destruct (v =? 0); lia. Qed.

(** Unfolds the accessors of a run down to [answer] and [after]. *)
Ltac run_calls :=
  unfold result, world_after, trace; simpl;
  fold (@answer); fold (@after).

(** Case split on the conditions met while running a program. *)
Ltac split_ifs :=
  repeat match goal with
    | |- context [if ?c then _ else _] => destruct c eqn:?; run_calls
    end.

(** ** What each section of the loop body leaves untouched *)

Section Frames.

Context {W : Type} (h : handler W) (cfg : BuildConfig).

Lemma slow_ticks_frame (l : Locals) (w : W) :
  let l' := result h (slow_ticks cfg l) w in
  state l' = state l /\ success l' = success l /\ buzzer l' = buzzer l /\
  sleeptimer l' = sleeptimer l /\ ticker10MS l' = ticker10MS l.
Proof. unfold slow_ticks. run_calls. split_ifs; repeat split. Qed.

Lemma fast_ticks_frame (l : Locals) (w : W) :
  let l' := result h (fast_ticks cfg l) w in
  state l' = state l /\ success l' = success l /\
  sleeptimer l' = sleeptimer l /\ toggle250MS l' = toggle250MS l /\
  ticker250MS l' = ticker250MS l.
Proof. unfold fast_ticks. run_calls. split_ifs; repeat split. Qed.

Lemma fast_ticks_buzzer (l : Locals) (w : W) :
  buzzer (result h (fast_ticks cfg l) w) =
  if (answer h (clock_getTickerFastDiff (ticker10MS l)) w
        >? CLOCK_TICKER_FAST_10MS cfg) && (buzzer l >? 0)
  then to_uint8 (buzzer l - 1) else buzzer l.
Proof. unfold fast_ticks. run_calls. split_ifs; reflexivity. Qed.

Lemma go_to_sleep_result (l : Locals) (w : W) :
  result h (go_to_sleep cfg l) w =
  if answer h (clock_getTickerSlowDiff (sleeptimer l)) (after h cli w)
       >? CLOCK_TICKER_SLOW_8S cfg
  then set_state S_SLEEP l else l.
Proof. unfold go_to_sleep. run_calls. split_ifs; reflexivity. Qed.

Lemma go_to_sleep_trace (l : Locals) (w : W) :
  trace h (go_to_sleep cfg l) w =
  Ev cli :: Ev (clock_getTickerSlowDiff (sleeptimer l)) ::
  (if answer h (clock_getTickerSlowDiff (sleeptimer l)) (after h cli w)
        >? CLOCK_TICKER_SLOW_8S cfg
   then [] else [Ev sei]).
Proof. unfold go_to_sleep. run_calls. split_ifs; reflexivity. Qed.

Lemma go_to_sleep_frame (l : Locals) (w : W) :
  let l' := result h (go_to_sleep cfg l) w in
  success l' = success l /\ buzzer l' = buzzer l /\
  sleeptimer l' = sleeptimer l /\ toggle250MS l' = toggle250MS l /\
  ticker10MS l' = ticker10MS l /\ ticker250MS l' = ticker250MS l.
Proof. unfold go_to_sleep. run_calls. split_ifs; repeat split. Qed.

Lemma processing_frame (l : Locals) (w : W) :
  let l' := result h (processing cfg l) w in
  toggle250MS l' = toggle250MS l /\ ticker10MS l' = ticker10MS l /\
  ticker250MS l' = ticker250MS l.
Proof.
  unfold processing, sleep_and_wake, any_key_press.
  destruct (state l); run_calls; split_ifs; repeat split.
Qed.

(** Only the PROGRAMMING branch assigns [success]. *)
Lemma processing_success (l : Locals) (w : W) :
  state l <> S_PROGRAMMING ->
  success (result h (processing cfg l) w) = success l.
Proof.
  intros Hs. unfold processing, sleep_and_wake, any_key_press.
  destruct (state l); try congruence; run_calls; split_ifs; reflexivity.
Qed.

(** The second [switch] never leaves the mode at SLEEP. *)
Lemma processing_not_sleep (l : Locals) (w : W) :
  state (result h (processing cfg l) w) <> S_SLEEP.
Proof.
  unfold processing, sleep_and_wake, any_key_press.
  destruct (state l) eqn:Hs; run_calls; split_ifs; simpl;
    rewrite ?Hs; discriminate.
Qed.

(** The second [switch] never enters PROGRAMMING except from IDLE. *)
Lemma processing_programming_from_idle (l : Locals) (w : W) :
  state (result h (processing cfg l) w) = S_PROGRAMMING ->
  state l = S_IDLE \/ state l = S_PROGRAMMING.
Proof.
  unfold processing, sleep_and_wake, any_key_press.
  destruct (state l) eqn:Hs; auto; run_calls; split_ifs; simpl;
    rewrite ?Hs; discriminate.
Qed.

Lemma signaling_result (l : Locals) (w : W) :
  result h (signaling cfg l) w = tt.
Proof. now destruct (result h (signaling cfg l) w). Qed.

Lemma after_ticks_frame (l : Locals) (w : W) :
  state (after_ticks h cfg l w) = state l /\
  success (after_ticks h cfg l w) = success l /\
  sleeptimer (after_ticks h cfg l w) = sleeptimer l.
Proof.
  unfold after_ticks, tick_bookkeeping. rewrite result_bind.
  destruct (slow_ticks_frame l w) as (H1 & H2 & _ & H3 & _).
  destruct (fast_ticks_frame (result h (slow_ticks cfg l) w)
              (world_after h (slow_ticks cfg l) w)) as (G1 & G2 & G3 & _).
  cbv zeta in *. repeat split; congruence.
Qed.

(** A pass, cut into its four steps. *)
Lemma body_before_sleep_check_result (l : Locals) (w : W) :
  result h (body_before_sleep_check cfg l) w =
  result h (processing cfg (after_ticks h cfg l w))
    (world_at_processing h cfg l w).
Proof.
  unfold body_before_sleep_check. now rewrite !result_bind.
Qed.

Lemma body_before_sleep_check_trace (l : Locals) (w : W) :
  trace h (body_before_sleep_check cfg l) w =
  trace h (tick_bookkeeping cfg l) w
  ++ trace h (signaling cfg (after_ticks h cfg l w)) (world_at_render h cfg l w)
  ++ trace h (processing cfg (after_ticks h cfg l w))
       (world_at_processing h cfg l w).
Proof.
  unfold body_before_sleep_check. now rewrite !trace_bind.
Qed.

Lemma iteration_result (l : Locals) (w : W) :
  result h (iteration cfg l) w =
  result h (go_to_sleep cfg (result h (body_before_sleep_check cfg l) w))
    (world_after h (body_before_sleep_check cfg l) w).
Proof. unfold iteration. now rewrite result_bind. Qed.

Lemma iteration_trace (l : Locals) (w : W) :
  trace h (iteration cfg l) w =
  trace h (body_before_sleep_check cfg l) w
  ++ trace h (go_to_sleep cfg (result h (body_before_sleep_check cfg l) w))
       (world_after h (body_before_sleep_check cfg l) w).
Proof. unfold iteration. now rewrite trace_bind. Qed.

(** A pass that does not start in PROGRAMMING keeps [success]. *)
Lemma iteration_success (l : Locals) (w : W) :
  state l <> S_PROGRAMMING ->
  success (result h (iteration cfg l) w) = success l.
Proof.
  intros Hs. rewrite iteration_result.
  destruct (go_to_sleep_frame
              (result h (body_before_sleep_check cfg l) w)
              (world_after h (body_before_sleep_check cfg l) w)) as (G & _).
  cbv zeta in G. rewrite G, body_before_sleep_check_result.
  destruct (after_ticks_frame l w) as (A1 & A2 & _).
  rewrite processing_success by congruence. exact A2.
Qed.

(** A pass ends in PROGRAMMING only if it started in IDLE or PROGRAMMING. *)
Lemma iteration_programming_from_idle (l : Locals) (w : W) :
  state (result h (iteration cfg l) w) = S_PROGRAMMING ->
  state l = S_IDLE \/ state l = S_PROGRAMMING.
Proof.
  rewrite iteration_result, go_to_sleep_result.
  match goal with |- context [if ?c then _ else _] => destruct c end;
    [discriminate |].
  rewrite body_before_sleep_check_result. intros Hp.
  apply processing_programming_from_idle in Hp.
  destruct (after_ticks_frame l w) as (A1 & _). now rewrite A1 in Hp.
Qed.

End Frames.

(** ** Calls that leave the LEDs and the buzzer alone *)

Lemma outputs_after_no_signal (tr : list Event) (o : Outputs) :
  drives_no_signal tr = true -> signals (outputs_after tr o) = signals o.
Proof.
  unfold drives_no_signal, outputs_after.
  revert o; induction tr as [| e tr IH]; intros o Hq; simpl in *; auto.
  apply andb_true_iff in Hq. destruct Hq as [He Htr].
  rewrite (IH _ Htr).
  destruct e as [T c]; destruct c; simpl in He; try discriminate; reflexivity.
Qed.

Lemma drives_no_signal_app (t1 t2 : list Event) :
  drives_no_signal (t1 ++ t2) = drives_no_signal t1 && drives_no_signal t2.
Proof. apply forallb_app. Qed.

Section Signals.

Context {W : Type} (h : handler W) (cfg : BuildConfig).

Lemma tick_bookkeeping_no_signal (l : Locals) (w : W) :
  drives_no_signal (trace h (tick_bookkeeping cfg l) w) = true.
Proof.
  unfold tick_bookkeeping, slow_ticks, fast_ticks.
  run_calls. split_ifs; reflexivity.
Qed.

Lemma processing_no_signal (l : Locals) (w : W) :
  drives_no_signal (trace h (processing cfg l) w) = true.
Proof.
  unfold processing, sleep_and_wake, any_key_press.
  destruct (state l); run_calls; split_ifs; reflexivity.
Qed.

Lemma go_to_sleep_no_signal (l : Locals) (w : W) :
  drives_no_signal (trace h (go_to_sleep cfg l) w) = true.
Proof. rewrite go_to_sleep_trace. simpl. split_ifs; reflexivity. Qed.

(** The signal outputs at the end of a pass are those its rendering set. *)
Lemma iteration_signals (l : Locals) (w : W) (o : Outputs) :
  signals (outputs_after (trace h (iteration cfg l) w) o) =
  signals (outputs_after
             (trace h (signaling cfg (after_ticks h cfg l w))
                (world_at_render h cfg l w)) o).
Proof.
  rewrite iteration_trace, body_before_sleep_check_trace.
  rewrite !outputs_after_app.
  rewrite (outputs_after_no_signal _ _ (go_to_sleep_no_signal _ _)).
  rewrite (outputs_after_no_signal _ _ (processing_no_signal _ _)).
  unfold signals.
  pose proof (outputs_after_no_signal _ o (tick_bookkeeping_no_signal l w)) as Ht.
  unfold signals in Ht. injection Ht as Hg Hy Hr Hb.
  unfold signaling, buzzer_output, led_signaling, programming_leds.
  destruct (state (after_ticks h cfg l w)); run_calls; split_ifs; reflexivity.
Qed.

End Signals.

(** ** Every [uint8_t] local stays in range *)

Section Ranges.

Context {W : Type} (h : handler W) (cfg : BuildConfig).

Local Hint Resolve to_uint8_range c_not_range : core.

Ltac ranges :=
  unfold locals_ok in *; simpl; intuition (auto; unfold uint8; lia).

Lemma tick_bookkeeping_ok (l : Locals) (w : W) :
  locals_ok l -> locals_ok (result h (tick_bookkeeping cfg l) w).
Proof.
  intros Hl. unfold tick_bookkeeping, slow_ticks, fast_ticks.
  run_calls. split_ifs; ranges.
Qed.

Lemma processing_ok (l : Locals) (w : W) :
  locals_ok l -> locals_ok (result h (processing cfg l) w).
Proof.
  intros Hl. unfold processing, sleep_and_wake, any_key_press.
  destruct (state l); run_calls; split_ifs; ranges.
Qed.

Lemma go_to_sleep_ok (l : Locals) (w : W) :
  locals_ok l -> locals_ok (result h (go_to_sleep cfg l) w).
Proof.
  intros Hl. rewrite go_to_sleep_result.
  match goal with |- context [if ?c then _ else _] => destruct c end;
    [exact Hl | exact Hl].
Qed.

Lemma iteration_ok (l : Locals) (w : W) :
  locals_ok l -> locals_ok (result h (iteration cfg l) w).
Proof.
  intros Hl. rewrite iteration_result. apply go_to_sleep_ok.
  rewrite body_before_sleep_check_result. apply processing_ok.
  now apply tick_bookkeeping_ok.
Qed.

Lemma loop_ok (n : nat) (l : Locals) (w : W) :
  locals_ok l -> locals_ok (result h (loop cfg n l) w).
Proof.
  revert l w; induction n as [| n IH]; intros l w Hl; cbn [loop].
  - exact Hl.
  - rewrite result_bind. apply IH. now apply iteration_ok.
Qed.

Lemma main_init_ok (w : W) : locals_ok (result h main_init w).
Proof. unfold main_init. run_calls. ranges. Qed.

(** Whatever the collaborators answer, and however long the loop has run,
    the locals of [main] hold values of their type. *)
Lemma main_ok (n : nat) (w : W) : locals_ok (result h (main cfg n) w).
Proof.
  unfold main. rewrite result_bind. apply loop_ok, main_init_ok.
Qed.

End Ranges.

(** ** [success] is carried along, and looked at in IDLE only *)

Ltac norm_locals :=
  unfold set_ticker10MS, set_ticker250MS, set_sleeptimer, set_success,
    set_buzzer, set_toggle250MS, set_state;
  cbn [ticker10MS ticker250MS sleeptimer success buzzer toggle250MS state].

Ltac by_cases :=
  run_calls; norm_locals;
  repeat match goal with
    | |- context [if ?c then _ else _] =>
        destruct c eqn:?; run_calls; norm_locals
    end;
  reflexivity.

Section SuccessCarried.

Context {W : Type} (h : handler W) (cfg : BuildConfig).

Lemma carries_run (v : Z) (p' p : Prog Locals) (w : W) :
  carries h v p' p ->
  result h p' w = set_success v (result h p w) /\
  world_after h p' w = world_after h p w /\
  trace h p' w = trace h p w.
Proof.
  intros Hc. unfold result at 1, world_after at 1, trace at 1.
  now rewrite (Hc w).
Qed.

Lemma tick_bookkeeping_carries (v : Z) (l : Locals) :
  carries h v (tick_bookkeeping cfg (set_success v l)) (tick_bookkeeping cfg l).
Proof.
  intros w. unfold tick_bookkeeping, slow_ticks, fast_ticks.
  destruct l as [t10 t250 st su bz tg s]. by_cases.
Qed.

Lemma signaling_ignores_success (v : Z) (l : Locals) (w : W) :
  state l <> S_IDLE ->
  run h (signaling cfg (set_success v l)) w = run h (signaling cfg l) w.
Proof.
  intros Hs. unfold signaling, buzzer_output, led_signaling.
  destruct l as [t10 t250 st su bz tg s]. simpl in Hs.
  destruct s; congruence || reflexivity.
Qed.

Lemma processing_carries (v : Z) (l : Locals) :
  state l <> S_PROGRAMMING ->
  carries h v (processing cfg (set_success v l)) (processing cfg l).
Proof.
  intros Hs w. unfold processing, sleep_and_wake, any_key_press.
  destruct l as [t10 t250 st su bz tg s]. simpl in Hs.
  destruct s; try congruence; by_cases.
Qed.

Lemma processing_overwrites_success (v : Z) (l : Locals) (w : W) :
  state l = S_PROGRAMMING ->
  run h (processing cfg (set_success v l)) w = run h (processing cfg l) w.
Proof.
  intros Hs. unfold processing.
  destruct l as [t10 t250 st su bz tg s]. simpl in Hs. subst s. by_cases.
Qed.

Lemma go_to_sleep_carries (v : Z) (l : Locals) :
  carries h v (go_to_sleep cfg (set_success v l)) (go_to_sleep cfg l).
Proof.
  intros w. unfold go_to_sleep.
  destruct l as [t10 t250 st su bz tg s]. by_cases.
Qed.

Lemma same_run {A} (p' p : Prog A) (w : W) :
  run h p' w = run h p w ->
  result h p' w = result h p w /\
  world_after h p' w = world_after h p w /\
  trace h p' w = trace h p w.
Proof. intros Hc. unfold result, world_after, trace. now rewrite Hc. Qed.

(** A pass that does not start in IDLE makes the same calls whatever
    [success] holds, and hands it on unless the script engine is run. *)
Lemma iteration_ignores_success (v : Z) (l : Locals) (w : W) :
  state l <> S_IDLE ->
  result h (iteration cfg (set_success v l)) w =
    (if state_eqb (state l) S_PROGRAMMING then result h (iteration cfg l) w
     else set_success v (result h (iteration cfg l) w)) /\
  world_after h (iteration cfg (set_success v l)) w =
    world_after h (iteration cfg l) w /\
  trace h (iteration cfg (set_success v l)) w = trace h (iteration cfg l) w.
Proof.
  intros Hs.
  destruct (carries_run v _ _ w (tick_bookkeeping_carries v l))
    as (Tr & Tw & Tt).
  assert (Hst : state (result h (tick_bookkeeping cfg l) w) = state l)
    by apply (after_ticks_frame h cfg l w).
  assert (Hs1 : state (result h (tick_bookkeeping cfg l) w) <> S_IDLE)
    by congruence.
  destruct (same_run _ _ (world_after h (tick_bookkeeping cfg l) w)
              (signaling_ignores_success v _
                 (world_after h (tick_bookkeeping cfg l) w) Hs1))
    as (_ & Sw & St).
  unfold iteration, body_before_sleep_check.
  repeat first [rewrite result_bind | rewrite world_after_bind
               | rewrite trace_bind].
  rewrite ?Tr, ?Tw, ?Tt, ?Sw, ?St.
  set (l1 := result h (tick_bookkeeping cfg l) w) in *.
  set (w1 := world_after h (signaling cfg l1)
               (world_after h (tick_bookkeeping cfg l) w)) in *.
  destruct (state l) eqn:Hl; try congruence; cbn [state_eqb].
  3: {
    destruct (same_run _ _ w1 (processing_overwrites_success v l1 w1 Hst))
      as (Pr & Pw & Pt).
    rewrite Pr, Pw, Pt. repeat split. }
  all: assert (Hnp : state l1 <> S_PROGRAMMING) by congruence.
  all: destruct (carries_run v _ _ w1 (processing_carries v l1 Hnp))
      as (Pr & Pw & Pt).
  all: rewrite Pr, Pw, Pt.
  all: destruct (carries_run v _ _ (world_after h (processing cfg l1) w1)
                   (go_to_sleep_carries v (result h (processing cfg l1) w1)))
      as (Gr & Gw & Gt).
  all: rewrite Gr, Gw, Gt; repeat split.
Qed.

End SuccessCarried.

(** ** The rendering of a pass *)

(** What the LEDs and the buzzer show once the rendering of a pass is done,
    mode by mode: green, yellow, red, buzzer. *)
Lemma signaling_signals {W} (h : handler W) cfg (l : Locals) (w : W)
    (o : Outputs) :
  signals (outputs_after (trace h (signaling cfg l) w) o) =
  match state l with
  | S_INIT | S_WAKEUP => (true, false, false, false)
  | S_IDLE =>
      if success l =? 1 then (true, false, false, level (buzzer l))
      else (false, false, level (toggle250MS l), level (buzzer l))
  | S_PROGRAMMING =>
      if (COMPATIBILITY_MODE_ISPNUB_ORIGINAL cfg =? 1)
         || (DONT_USE_YELLOW_LED cfg =? 1)
      then (false, false, true, level (buzzer l))
      else (false, true, false, level (buzzer l))
  | S_NO_MORE =>
      (level (toggle250MS l), false, level (toggle250MS l), level (buzzer l))
  | S_NO_PROGRAM =>
      (level (c_not (toggle250MS l)), false, level (toggle250MS l),
       level (buzzer l))
  | S_SLEEP => (false, false, false, false)
  end.
Proof.
  unfold signaling, buzzer_output, led_signaling, programming_leds, level.
  destruct (state l); run_calls; split_ifs; reflexivity.
Qed.

(** ** The loop, step by step *)

(** C1: in every pass of the loop, whatever the mode, the sleep check follows
    the second [switch]: interrupts are disabled, the slow-tick delta since
    [sleeptimer] is read, and if it exceeds CLOCK_TICKER_SLOW_8S the mode is
    forced to SLEEP, overriding the mode the [switch] produced; otherwise the
    mode is left as produced and interrupts are re-enabled.  The pass ends in
    SLEEP if and only if the delta exceeds the threshold. *)
Theorem sleep_check_every_pass {W} (h : handler W) cfg (l : Locals) (w : W) :
  let l1 := result h (body_before_sleep_check cfg l) w in
  let w1 := world_after h (body_before_sleep_check cfg l) w in
  let elapsed :=
    answer h (clock_getTickerSlowDiff (sleeptimer l1)) (after h cli w1) in
  let l2 := result h (iteration cfg l) w in
  trace h (iteration cfg l) w =
    trace h (body_before_sleep_check cfg l) w
    ++ [Ev cli; Ev (clock_getTickerSlowDiff (sleeptimer l1))]
    ++ (if elapsed >? CLOCK_TICKER_SLOW_8S cfg then [] else [Ev sei]) /\
  l2 = (if elapsed >? CLOCK_TICKER_SLOW_8S cfg
        then set_state S_SLEEP l1 else l1) /\
  (state l2 = S_SLEEP <-> elapsed > CLOCK_TICKER_SLOW_8S cfg).
Proof.
  cbv zeta.
  rewrite iteration_trace, iteration_result, go_to_sleep_trace,
    go_to_sleep_result.
  split; [reflexivity | split; [reflexivity |]].
  destruct (Z.gtb_spec
              (answer h
                 (clock_getTickerSlowDiff
                    (sleeptimer (result h (body_before_sleep_check cfg l) w)))
                 (after h cli (world_after h (body_before_sleep_check cfg l) w)))
              (CLOCK_TICKER_SLOW_8S cfg)) as [Hgt | Hle].
  - split; [intros _; lia | reflexivity].
  - split; [| lia].
    rewrite body_before_sleep_check_result.
    intros Hs. now apply processing_not_sleep in Hs.
Qed.

(** C2: the SLEEP branch of the second [switch] arms INT0 and INT1, enables
    the sleep primitive, (disables the brown-out detector where the build has
    dynamic BOD control,) enables global interrupts immediately before the
    blocking sleep instruction and blocks; after the wake-up it disables the
    sleep primitive, stores the current slow tick in [sleeptimer] and sets
    the mode to WAKEUP. *)
Theorem sleep_branch_sequence {W} (h : handler W) cfg (l : Locals) (w : W) :
  state l = S_SLEEP ->
  let until_block :=
    [Ev hal_enableINT0; Ev hal_enableINT1; Ev sleep_enable]
    ++ (if HAS_DYNAMIC_BOD_CONTROL cfg =? 1 then [Ev sleep_bod_disable] else [])
    ++ [Ev sei; Ev sleep_cpu] in
  let now :=
    answer h clock_getTickerSlow (play h (until_block ++ [Ev sleep_disable]) w) in
  trace h (processing cfg l) w =
    until_block ++ [Ev sleep_disable; Ev clock_getTickerSlow] /\
  result h (processing cfg l) w = set_state S_WAKEUP (set_sleeptimer now l).
Proof.
  intros Hs. unfold processing. rewrite Hs. unfold sleep_and_wake.
  destruct (HAS_DYNAMIC_BOD_CONTROL cfg =? 1); run_calls; split; reflexivity.
Qed.

Lemma sleep_branch_sequence_witness :
  state (fresh_locals S_SLEEP) = S_SLEEP /\
  trace replay (processing bench_config (fresh_locals S_SLEEP)) [17] =
    [Ev hal_enableINT0; Ev hal_enableINT1; Ev sleep_enable;
     Ev sleep_bod_disable; Ev sei; Ev sleep_cpu; Ev sleep_disable;
     Ev clock_getTickerSlow] /\
  result replay (processing bench_config (fresh_locals S_SLEEP)) [17] =
    {| ticker10MS := 0; ticker250MS := 0; sleeptimer := 17; success := 1;
       buzzer := 0; toggle250MS := 0; state := S_WAKEUP |}.
Proof.
  split; [reflexivity |].
  exact (sleep_branch_sequence replay bench_config (fresh_locals S_SLEEP) [17]
           eq_refl).
Defined.

(** C3: in a pass that starts in INIT or WAKEUP the second [switch] reads the
    remaining-cycle counter once and then sets the mode to IDLE whatever the
    counter returned; the NO_MORE assigned on exhaustion is overwritten. *)
Theorem init_wakeup_next_mode_is_idle {W} (h : handler W) cfg (l : Locals)
    (w : W) :
  state l = S_INIT \/ state l = S_WAKEUP ->
  result h (processing cfg l) w = set_state S_IDLE l /\
  trace h (processing cfg l) w = [Ev counter_read] /\
  state (result h (body_before_sleep_check cfg l) w) = S_IDLE.
Proof.
  assert (Hp : forall (m : Locals) (w' : W),
             state m = S_INIT \/ state m = S_WAKEUP ->
             result h (processing cfg m) w' = set_state S_IDLE m /\
             trace h (processing cfg m) w' = [Ev counter_read]).
  { intros m w' Hm. unfold processing.
    destruct Hm as [Hm | Hm]; rewrite Hm; run_calls.
    all: destruct (answer h counter_read w' =? 0)%N; split; reflexivity. }
  intros Hs. destruct (Hp l w Hs) as [Hr Ht].
  split; [exact Hr | split; [exact Ht |]].
  rewrite body_before_sleep_check_result.
  destruct (after_ticks_frame h cfg l w) as (Hst & _).
  rewrite <- Hst in Hs.
  destruct (Hp _ (world_at_processing h cfg l w) Hs) as [Hr' _].
  now rewrite Hr'.
Qed.

Lemma init_wakeup_next_mode_is_idle_witness :
  (state (fresh_locals S_WAKEUP) = S_INIT \/
   state (fresh_locals S_WAKEUP) = S_WAKEUP) /\
  result replay (processing bench_config (fresh_locals S_WAKEUP)) [0] =
    fresh_locals S_IDLE /\
  trace replay (processing bench_config (fresh_locals S_WAKEUP)) [0] =
    [Ev counter_read] /\
  state (result replay
           (body_before_sleep_check bench_config (fresh_locals S_WAKEUP)) [0])
    = S_IDLE.
Proof.
  split; [right; reflexivity |].
  exact (init_wakeup_next_mode_is_idle replay bench_config
           (fresh_locals S_WAKEUP) [0] (or_intror eq_refl)).
Defined.

(** C4: in a pass that starts in PROGRAMMING the second [switch] calls the
    script engine once and stores its result in [success]; result 1 sets
    [buzzer] to 3 and the mode to IDLE, result 0 sets [buzzer] to 30 and the
    mode to IDLE, any other result sets [buzzer] to 60 and the mode to
    NO_PROGRAM; in all three cases [sleeptimer] is then set to the current
    slow tick. *)
Theorem programming_outcome_mapping {W} (h : handler W) cfg (l : Locals)
    (w : W) :
  state l = S_PROGRAMMING ->
  let r := to_uint8 (answer h script_run w) in
  let now := answer h clock_getTickerSlow (after h script_run w) in
  let l' := result h (processing cfg l) w in
  trace h (processing cfg l) w = [Ev script_run; Ev clock_getTickerSlow] /\
  success l' = r /\
  (buzzer l', state l') =
    (if r =? 1 then (3, S_IDLE)
     else if r =? 0 then (30, S_IDLE) else (60, S_NO_PROGRAM)) /\
  sleeptimer l' = to_uint8 now /\
  ticker10MS l' = ticker10MS l /\ ticker250MS l' = ticker250MS l /\
  toggle250MS l' = toggle250MS l.
Proof.
  intros Hs. unfold processing. rewrite Hs. run_calls.
  split_ifs; repeat split.
Qed.

Lemma programming_outcome_mapping_witness :
  state (fresh_locals S_PROGRAMMING) = S_PROGRAMMING /\
  let l' := result replay (processing bench_config (fresh_locals S_PROGRAMMING))
              [2; 9] in
  trace replay (processing bench_config (fresh_locals S_PROGRAMMING)) [2; 9] =
    [Ev script_run; Ev clock_getTickerSlow] /\
  success l' = 2 /\
  (buzzer l', state l') = (60, S_NO_PROGRAM) /\
  sleeptimer l' = 9 /\
  ticker10MS l' = 0 /\ ticker250MS l' = 0 /\ toggle250MS l' = 0.
Proof.
  split; [reflexivity |].
  exact (programming_outcome_mapping replay bench_config
           (fresh_locals S_PROGRAMMING) [2; 9] eq_refl).
Defined.

(** C5: in a pass that starts in IDLE the second [switch] polls the primary
    switch and, if that reports no press, the external switch.  If either
    reports a press, [sleeptimer] is set to the current slow tick first and
    the remaining-cycle counter is read next: a nonzero counter makes the
    mode PROGRAMMING, a zero counter sets [buzzer] to 60 and the mode to
    NO_MORE.  Without a press the locals are left as they were. *)
Theorem idle_key_press_handling {W} (h : handler W) cfg (l : Locals) (w : W) :
  state l = S_IDLE ->
  let primary := get_key_press (Z.shiftl 1 (IO_SWITCH cfg)) in
  let external := get_key_press (Z.shiftl 1 (IO_EXT_SWITCH cfg)) in
  let k1 := answer h primary w in
  let k2 := answer h external (after h primary w) in
  let pressed := negb (k1 =? 0) || negb (k2 =? 0) in
  let polls := if k1 =? 0 then [Ev primary; Ev external] else [Ev primary] in
  let now := answer h clock_getTickerSlow (play h polls w) in
  let remaining :=
    answer h counter_read (play h (polls ++ [Ev clock_getTickerSlow]) w) in
  trace h (processing cfg l) w =
    polls ++ (if pressed then [Ev clock_getTickerSlow; Ev counter_read] else [])
  /\
  result h (processing cfg l) w =
    (if pressed then
       if (remaining =? 0)%N then
         {| ticker10MS := ticker10MS l; ticker250MS := ticker250MS l;
            sleeptimer := to_uint8 now; success := success l; buzzer := 60;
            toggle250MS := toggle250MS l; state := S_NO_MORE |}
       else
         {| ticker10MS := ticker10MS l; ticker250MS := ticker250MS l;
            sleeptimer := to_uint8 now; success := success l;
            buzzer := buzzer l;
            toggle250MS := toggle250MS l; state := S_PROGRAMMING |}
     else l).
Proof.
  intros Hs. unfold processing, any_key_press. rewrite Hs. run_calls.
  destruct (answer h (get_key_press (Z.shiftl 1 (IO_SWITCH cfg))) w =? 0);
    run_calls.
  - destruct (answer h (get_key_press (Z.shiftl 1 (IO_EXT_SWITCH cfg)))
                (after h (get_key_press (Z.shiftl 1 (IO_SWITCH cfg))) w) =? 0);
      run_calls.
    + split; reflexivity.
    + match goal with
      | |- context [(0 <? ?c)%N] => destruct (N.eqb_spec c 0) as [-> | Hc]
      end.
      * split; reflexivity.
      * match goal with
        | |- context [(0 <? ?c)%N] =>
            replace (0 <? c)%N with true by (symmetry; apply N.ltb_lt; lia)
        end.
        split; reflexivity.
  - match goal with
    | |- context [(0 <? ?c)%N] => destruct (N.eqb_spec c 0) as [-> | Hc]
    end.
    + split; reflexivity.
    + match goal with
      | |- context [(0 <? ?c)%N] =>
          replace (0 <? c)%N with true by (symmetry; apply N.ltb_lt; lia)
      end.
      split; reflexivity.
Qed.

Lemma idle_key_press_handling_witness :
  state (fresh_locals S_IDLE) = S_IDLE /\
  trace replay (processing bench_config (fresh_locals S_IDLE)) [0; 8; 33; 0] =
    [Ev (get_key_press 4); Ev (get_key_press 8); Ev clock_getTickerSlow;
     Ev counter_read] /\
  result replay (processing bench_config (fresh_locals S_IDLE)) [0; 8; 33; 0] =
    {| ticker10MS := 0; ticker250MS := 0; sleeptimer := 33; success := 1;
       buzzer := 60; toggle250MS := 0; state := S_NO_MORE |}.
Proof.
  split; [reflexivity |].
  exact (idle_key_press_handling replay bench_config (fresh_locals S_IDLE)
           [0; 8; 33; 0] eq_refl).
Defined.

(** C6, as the code has it: at the end of the rendering, and so at the end of
    the pass, the buzzer output is off in INIT, WAKEUP and SLEEP, whatever the
    countdown; in IDLE, PROGRAMMING, NO_MORE and NO_PROGRAM it is on exactly
    when the countdown (after the tick bookkeeping of the pass) is nonzero. *)
Theorem buzzer_output_by_mode {W} (h : handler W) cfg (l : Locals) (w : W)
    (o : Outputs) :
  let l1 := after_ticks h cfg l w in
  let expected (m : Locals) :=
    match state m with
    | S_INIT | S_WAKEUP | S_SLEEP => false
    | S_IDLE | S_PROGRAMMING | S_NO_MORE | S_NO_PROGRAM => negb (buzzer m =? 0)
    end in
  buzzer_on (outputs_after (trace h (signaling cfg l) w) o) = expected l /\
  buzzer_on (outputs_after (trace h (iteration cfg l) w) o) = expected l1.
Proof.
  cbv zeta.
  pose proof (iteration_signals h cfg l w o) as Hi.
  rewrite signaling_signals in Hi.
  pose proof (signaling_signals h cfg l w o) as Hr.
  unfold signals, level in *.
  split.
  - destruct (state l);
      repeat match type of Hr with
        | context [if ?c then _ else _] => destruct c
        end; now inversion Hr.
  - destruct (state (after_ticks h cfg l w));
      repeat match type of Hi with
        | context [if ?c then _ else _] => destruct c
        end; now inversion Hi.
Qed.

(** C6, counterexample to the claim as worded: a pass in WAKEUP with the
    countdown at 5 switches the buzzer on and then off again, so the output
    ends off, where the rule "on iff the countdown is nonzero, except in
    SLEEP" gives on. *)
Lemma buzzer_forced_off_in_wakeup :
  trace replay (signaling bench_config wakeup_buzzing) [] =
    [Ev (hal_setBuzzer 1); Ev (hal_setLEDgreen 1); Ev (hal_setLEDyellow 0);
     Ev (hal_setLEDred 0); Ev (hal_setBuzzer 0)] /\
  buzzer_on (outputs_after
               (trace replay (signaling bench_config wakeup_buzzing) [])
               all_off) = false /\
  buzzer_on (outputs_after
               (trace replay (iteration bench_config wakeup_buzzing) [])
               all_off) = false /\
  spec_buzzer_output wakeup_buzzing = true /\
  spec_buzzer_output (after_ticks replay bench_config wakeup_buzzing []) = true.
Proof. repeat split. Qed.

(** The same from reset: in the session of [session 0] the sixth pass starts
    in WAKEUP with the countdown at 30, and its rendering leaves the buzzer
    off. *)
Example wakeup_with_countdown_running_from_reset :
  state (result replay (main bench_config 5) (session 0)) = S_WAKEUP /\
  buzzer (result replay (main_until_render bench_config 5) (session 0)) = 30 /\
  buzzer_on (outputs_after
               (trace replay (main_until_render bench_config 5) (session 0))
               all_off) = false.
Proof. repeat split. Qed.

(** C7, as the code has it: [success] starts at 1 and drives the IDLE
    rendering (green solid when it is 1; otherwise green off and red blinking
    with the slow toggle; yellow off).  Nothing clears it on the way through
    sleep: the SLEEP pass and the WAKEUP pass that follows leave it as it was,
    so after a sleep/wake cycle it still decides the IDLE LED colour.  It
    drives nothing else: a pass that does not start in IDLE makes the same
    calls and leaves the same locals whatever [success] holds, handing it on
    unchanged unless the script engine is run. *)
Theorem success_flag_kept_across_sleep {W} (h : handler W) cfg (l : Locals)
    (w : W) :
  state l = S_SLEEP \/ state l = S_WAKEUP ->
  success (result h (iteration cfg l) w) = success l /\
  success (result h (loop cfg 2 l) w) = success l /\
  success (result h main_init w) = 1 /\
  (forall (m : Locals) (w' : W) (o : Outputs),
      let shown :=
        outputs_after (trace h (signaling cfg (set_state S_IDLE m)) w') o in
      (led_green shown, led_yellow shown, led_red shown) =
      if success m =? 1 then (true, false, false)
      else (false, false, level (toggle250MS m))) /\
  (forall (m : Locals) (v : Z) (w' : W),
      state m <> S_IDLE ->
      result h (iteration cfg (set_success v m)) w' =
        (if state_eqb (state m) S_PROGRAMMING
         then result h (iteration cfg m) w'
         else set_success v (result h (iteration cfg m) w')) /\
      world_after h (iteration cfg (set_success v m)) w' =
        world_after h (iteration cfg m) w' /\
      trace h (iteration cfg (set_success v m)) w' =
        trace h (iteration cfg m) w').
Proof.
  intros Hs.
  assert (Hnp : state l <> S_PROGRAMMING)
    by (destruct Hs as [Hs | Hs]; rewrite Hs; discriminate).
  assert (Hni : state l <> S_IDLE)
    by (destruct Hs as [Hs | Hs]; rewrite Hs; discriminate).
  split; [now apply iteration_success |].
  split.
  { cbn [loop]. rewrite !result_bind. cbn [loop result run fst].
    rewrite iteration_success; [now apply iteration_success |].
    intros Hp. apply iteration_programming_from_idle in Hp. tauto. }
  split; [reflexivity |].
  split; [| intros m v w'; apply iteration_ignores_success].
  intros m w' o. cbv zeta.
  pose proof (signaling_signals h cfg (set_state S_IDLE m) w' o) as Hr.
  unfold signals in Hr. simpl in Hr.
  destruct (success m =? 1); now inversion Hr.
Qed.

Lemma success_flag_kept_across_sleep_witness :
  (state (set_success 0 (fresh_locals S_SLEEP)) = S_SLEEP \/
   state (set_success 0 (fresh_locals S_SLEEP)) = S_WAKEUP) /\
  success (result replay
             (iteration bench_config (set_success 0 (fresh_locals S_SLEEP)))
             []) = 0 /\
  success (result replay
             (loop bench_config 2 (set_success 0 (fresh_locals S_SLEEP)))
             []) = 0.
Proof.
  split; [left; reflexivity |].
  pose proof (success_flag_kept_across_sleep replay bench_config
                (set_success 0 (fresh_locals S_SLEEP)) []
                (or_introl eq_refl)) as H.
  exact (conj (proj1 H) (proj1 (proj2 H))).
Defined.

(** C7, counterexample to the claim as worded: two sessions from reset that
    differ only in what the script engine returned before the device went to
    sleep.  Both go IDLE, SLEEP, WAKEUP, IDLE; in the IDLE pass after the
    wake-up the failed session shows red with green off, the successful one
    green: the flag has survived the sleep and decides the colour. *)
Lemma success_flag_outlives_sleep :
  map (fun n => state (result replay (main bench_config n) (session 0)))
    [3; 4; 5; 6]%nat = [S_IDLE; S_SLEEP; S_WAKEUP; S_IDLE] /\
  map (fun n => state (result replay (main bench_config n) (session 1)))
    [3; 4; 5; 6]%nat = [S_IDLE; S_SLEEP; S_WAKEUP; S_IDLE] /\
  success (result replay (main bench_config 6) (session 0)) = 0 /\
  success (result replay (main bench_config 6) (session 1)) = 1 /\
  signals (outputs_after
             (trace replay (main_until_render bench_config 6) (session 0))
             all_off) = (false, false, true, true) /\
  signals (outputs_after
             (trace replay (main_until_render bench_config 6) (session 1))
             all_off) = (true, false, false, true).
Proof. repeat split. Qed.

(** The second [switch] leaves the countdown alone or sets it to one of the
    three durations. *)
Lemma processing_buzzer {W} (h : handler W) cfg (l : Locals) (w : W) :
  let b := buzzer (result h (processing cfg l) w) in
  b = buzzer l \/ b = 3 \/ b = 30 \/ b = 60.
Proof.
  unfold processing, sleep_and_wake, any_key_press.
  destruct (state l); run_calls; split_ifs; auto.
Qed.

(** C8: the countdown never leaves the range of its type, so it is never
    negative; the tick bookkeeping lowers it by one when a fast tick has
    elapsed and it is nonzero, and leaves it alone otherwise, so it stops at
    zero; the rest of the pass either keeps it or sets it to 3, 30 or 60,
    and such an assignment yields that constant whatever the value before. *)
Theorem buzzer_countdown_bounds {W} (h : handler W) cfg (l : Locals) (w : W) :
  uint8 (buzzer l) ->
  let elapsed :=
    answer h (clock_getTickerFastDiff (ticker10MS l))
      (world_after h (slow_ticks cfg l) w) in
  let b1 := buzzer (after_ticks h cfg l w) in
  let b2 := buzzer (result h (iteration cfg l) w) in
  b1 = (if (elapsed >? CLOCK_TICKER_FAST_10MS cfg) && (buzzer l >? 0)
        then buzzer l - 1 else buzzer l) /\
  0 <= b1 /\ buzzer l - 1 <= b1 <= buzzer l /\
  (b2 = b1 \/ b2 = 3 \/ b2 = 30 \/ b2 = 60) /\
  0 <= b2 /\
  (forall m : Locals,
      buzzer (set_buzzer 3 m) = 3 /\ buzzer (set_buzzer 30 m) = 30 /\
      buzzer (set_buzzer 60 m) = 60) /\
  (forall (n : nat) (w0 : W), 0 <= buzzer (result h (main cfg n) w0) < 256).
Proof.
  intros Hb. cbv zeta.
  assert (H1 : buzzer (after_ticks h cfg l w) =
               if (answer h (clock_getTickerFastDiff (ticker10MS l))
                     (world_after h (slow_ticks cfg l) w)
                     >? CLOCK_TICKER_FAST_10MS cfg) && (buzzer l >? 0)
               then buzzer l - 1 else buzzer l).
  { unfold after_ticks, tick_bookkeeping. rewrite result_bind.
    rewrite fast_ticks_buzzer.
    destruct (slow_ticks_frame h cfg l w) as (_ & _ & Hbz & _ & Ht).
    cbv zeta in Hbz, Ht. rewrite Hbz, Ht.
    destruct (_ >? CLOCK_TICKER_FAST_10MS cfg); simpl; [| reflexivity].
    destruct (Z.gtb_spec (buzzer l) 0); [| reflexivity].
    apply to_uint8_small. unfold uint8 in *. lia. }
  assert (H2 : buzzer l - 1 <= buzzer (after_ticks h cfg l w) <= buzzer l
               /\ 0 <= buzzer (after_ticks h cfg l w)).
  { rewrite H1. unfold uint8 in Hb.
    destruct (_ >? CLOCK_TICKER_FAST_10MS cfg); simpl; [| lia].
    destruct (Z.gtb_spec (buzzer l) 0); lia. }
  assert (H3 : buzzer (result h (iteration cfg l) w)
               = buzzer (after_ticks h cfg l w)
               \/ buzzer (result h (iteration cfg l) w) = 3
               \/ buzzer (result h (iteration cfg l) w) = 30
               \/ buzzer (result h (iteration cfg l) w) = 60).
  { rewrite iteration_result.
    destruct (go_to_sleep_frame h cfg
                (result h (body_before_sleep_check cfg l) w)
                (world_after h (body_before_sleep_check cfg l) w))
      as (_ & Hg & _).
    cbv zeta in Hg. rewrite Hg, body_before_sleep_check_result.
    apply processing_buzzer. }
  split; [exact H1 |].
  split; [tauto |].
  split; [tauto |].
  split; [exact H3 |].
  split; [lia |].
  split; [intros m; repeat split |].
  intros n w0. destruct (main_ok h cfg n w0) as (_ & _ & _ & _ & Hz & _).
  exact Hz.
Qed.

Lemma buzzer_countdown_bounds_witness :
  uint8 (buzzer wakeup_buzzing) /\
  buzzer (after_ticks replay bench_config wakeup_buzzing [0; 79; 0]) = 4 /\
  0 <= buzzer (after_ticks replay bench_config wakeup_buzzing [0; 79; 0]).
Proof.
  assert (Hb : uint8 (buzzer wakeup_buzzing)) by (unfold uint8; simpl; lia).
  split; [exact Hb |].
  pose proof (buzzer_countdown_bounds replay bench_config wakeup_buzzing
                [0; 79; 0] Hb) as H.
  exact (conj (proj1 H) (proj1 (proj2 H))).
Defined.

(** C9: each wake interrupt handler makes exactly one call, the one that
    disables its own interrupt source.  Taking the interrupt leaves the
    locals of [main] (mode, countdown, tick references, toggle, outcome) as
    they were, and of the outputs only the enable bit of that source
    changes. *)
Theorem wake_handlers_disable_own_source_only {W} (h : handler W)
    (m : Machine W) (o : Outputs) :
  trace h ISR_INT1_vect (world m) = [Ev hal_disableINT1] /\
  trace h ISR_INT0_vect (world m) = [Ev hal_disableINT0] /\
  fst (take_interrupt h ISR_INT1_vect m) =
    {| frame := frame m; world := after h hal_disableINT1 (world m) |} /\
  fst (take_interrupt h ISR_INT0_vect m) =
    {| frame := frame m; world := after h hal_disableINT0 (world m) |} /\
  outputs_after (snd (take_interrupt h ISR_INT1_vect m)) o =
    {| led_green := led_green o; led_yellow := led_yellow o;
       led_red := led_red o; buzzer_on := buzzer_on o;
       int0_enabled := int0_enabled o; int1_enabled := false;
       sleep_enabled := sleep_enabled o; irq_enabled := irq_enabled o |} /\
  outputs_after (snd (take_interrupt h ISR_INT0_vect m)) o =
    {| led_green := led_green o; led_yellow := led_yellow o;
       led_red := led_red o; buzzer_on := buzzer_on o;
       int0_enabled := false; int1_enabled := int1_enabled o;
       sleep_enabled := sleep_enabled o; irq_enabled := irq_enabled o |}.
Proof. repeat split. Qed.

(** C10: in a build where neither COMPATIBILITY_MODE_ISPNUB_ORIGINAL nor
    DONT_USE_YELLOW_LED is 1, the rendering of a pass leaves the yellow LED
    on exactly when the mode at the start of the pass is PROGRAMMING, and the
    rest of the pass does not touch it. *)
Theorem yellow_led_only_while_programming {W} (h : handler W) cfg
    (l : Locals) (w : W) (o : Outputs) :
  COMPATIBILITY_MODE_ISPNUB_ORIGINAL cfg <> 1 ->
  DONT_USE_YELLOW_LED cfg <> 1 ->
  led_yellow (outputs_after (trace h (signaling cfg l) w) o) =
    state_eqb (state l) S_PROGRAMMING /\
  led_yellow (outputs_after (trace h (iteration cfg l) w) o) =
    state_eqb (state l) S_PROGRAMMING.
Proof.
  intros Hc Hd.
  apply Z.eqb_neq in Hc. apply Z.eqb_neq in Hd.
  pose proof (iteration_signals h cfg l w o) as Hi.
  rewrite signaling_signals in Hi.
  pose proof (signaling_signals h cfg l w o) as Hr.
  destruct (after_ticks_frame h cfg l w) as (Hst & _).
  rewrite Hst, Hc, Hd in Hi. rewrite Hc, Hd in Hr.
  unfold signals in *. cbn [orb] in Hi, Hr.
  split.
  - destruct (state l);
      repeat match type of Hr with
        | context [if ?c then _ else _] => destruct c
        end; cbn [state_eqb]; congruence.
  - destruct (state l);
      repeat match type of Hi with
        | context [if ?c then _ else _] => destruct c
        end; cbn [state_eqb]; congruence.
Qed.

Lemma yellow_led_only_while_programming_witness :
  COMPATIBILITY_MODE_ISPNUB_ORIGINAL bench_config <> 1 /\
  DONT_USE_YELLOW_LED bench_config <> 1 /\
  led_yellow (outputs_after
                (trace replay
                   (signaling bench_config (fresh_locals S_PROGRAMMING)) [])
                all_off) = true /\
  led_yellow (outputs_after
                (trace replay
                   (iteration bench_config (fresh_locals S_PROGRAMMING)) [])
                all_off) = true.
Proof.
  split; [discriminate |]. split; [discriminate |].
  apply (yellow_led_only_while_programming replay bench_config
           (fresh_locals S_PROGRAMMING) [] all_off); discriminate.
Defined.

(** * Further properties of the loop *)

(** ** Passes, one after the other *)

Section Passes.

Context {W : Type} (h : handler W) (cfg : BuildConfig).

(** [n + 1] passes are [n] passes and one more. *)
Lemma loop_snoc (n : nat) (l : Locals) (w : W) :
  result h (loop cfg (S n) l) w =
    result h (iteration cfg (result h (loop cfg n l) w))
      (world_after h (loop cfg n l) w) /\
  world_after h (loop cfg (S n) l) w =
    world_after h (iteration cfg (result h (loop cfg n l) w))
      (world_after h (loop cfg n l) w) /\
  trace h (loop cfg (S n) l) w =
    trace h (loop cfg n l) w
    ++ trace h (iteration cfg (result h (loop cfg n l) w))
         (world_after h (loop cfg n l) w).
Proof.
  revert l w; induction n as [| n IH]; intros l w.
  - cbn [loop]. rewrite result_bind, world_after_bind, trace_bind.
    unfold result, world_after, trace; simpl. now rewrite app_nil_r.
  - assert (Hstep : forall m (l0 : Locals),
               loop cfg (S m) l0 = bind (iteration cfg l0) (loop cfg m))
      by reflexivity.
    rewrite (Hstep (S n)).
    rewrite result_bind, world_after_bind, trace_bind.
    destruct (IH (result h (iteration cfg l) w)
                (world_after h (iteration cfg l) w)) as (Hr & Hw & Ht).
    rewrite Hr, Hw, Ht.
    rewrite (Hstep n), result_bind, world_after_bind, trace_bind.
    now rewrite app_assoc.
Qed.

Lemma loop_snoc_result (n : nat) (l : Locals) (w : W) :
  result h (loop cfg (S n) l) w =
  result h (iteration cfg (result h (loop cfg n l) w))
    (world_after h (loop cfg n l) w).
Proof. apply loop_snoc. Qed.

Lemma main_snoc_result (n : nat) (w : W) :
  result h (main cfg (S n)) w =
  result h (iteration cfg (result h (main cfg n) w))
    (world_after h (main cfg n) w).
Proof.
  unfold main. rewrite !result_bind, !world_after_bind.
  apply loop_snoc_result.
Qed.

Lemma main_snoc_trace (n : nat) (w : W) :
  trace h (main cfg (S n)) w =
  trace h (main cfg n) w
  ++ trace h (iteration cfg (result h (main cfg n) w))
       (world_after h (main cfg n) w).
Proof.
  unfold main. rewrite !trace_bind, !result_bind, !world_after_bind.
  destruct (loop_snoc n (result h main_init w) (world_after h main_init w))
    as (_ & _ & Ht).
  now rewrite Ht, app_assoc.
Qed.

(** The mode a pass ends in: SLEEP when the sleep check fires, otherwise the
    mode the second [switch] left. *)
Lemma iteration_state (l : Locals) (w : W) :
  state (result h (iteration cfg l) w) =
  if sleep_check_fires h cfg l w then S_SLEEP
  else state (result h (processing cfg (after_ticks h cfg l w))
                (world_at_processing h cfg l w)).
Proof.
  rewrite iteration_result, go_to_sleep_result.
  fold (sleep_check_fires h cfg l w).
  destruct (sleep_check_fires h cfg l w); [reflexivity |].
  now rewrite body_before_sleep_check_result.
Qed.

(** The second [switch] follows the transition table. *)
Lemma processing_may_follow (l : Locals) (w : W) :
  may_follow (state l) (state (result h (processing cfg l) w)) = true
  \/ state (result h (processing cfg l) w) = S_WAKEUP /\ state l = S_SLEEP.
Proof.
  unfold processing, sleep_and_wake, any_key_press.
  destruct (state l) eqn:Hs; run_calls; split_ifs; simpl; rewrite ?Hs; auto.
Qed.

Lemma iteration_may_follow (l : Locals) (w : W) :
  may_follow (state l) (state (result h (iteration cfg l) w)) = true.
Proof.
  rewrite iteration_state.
  destruct (sleep_check_fires h cfg l w).
  - now destruct (state l).
  - destruct (after_ticks_frame h cfg l w) as (Hst & _).
    destruct (processing_may_follow (after_ticks h cfg l w)
                (world_at_processing h cfg l w)) as [Hm | [Hm Hs]].
    + now rewrite Hst in Hm.
    + rewrite Hm. rewrite Hst in Hs. now rewrite Hs.
Qed.

End Passes.

(** X1: the mode a pass ends in is one the transition table allows for the
    mode it started in, whatever the collaborators answer; and every entry of
    the table is taken by some answers. *)
Theorem pass_follows_transition_table {W} (h : handler W) cfg (l : Locals)
    (w : W) :
  may_follow (state l) (state (result h (iteration cfg l) w)) = true /\
  forallb
    (fun a =>
       forallb
         (fun b =>
            implb (may_follow a b)
              (existsb
                 (fun answers =>
                    state_eqb
                      (state (result replay
                                (iteration bench_config (fresh_locals a))
                                answers)) b)
                 [[]; [0; 0; 245]; [0; 0; 0; 245]; [0; 0; 0; 0; 245];
                  [0; 0; 1; 0; 5]; [0; 0; 1; 0; 0]; [0; 0; 2]]))
         all_states)
    all_states = true.
Proof.
  split; [apply iteration_may_follow | reflexivity].
Qed.

(** X2: INIT is the mode of the first pass only: after one or more passes
    from reset the mode is never INIT again. *)
Theorem init_mode_only_in_first_pass {W} (h : handler W) cfg (n : nat)
    (w : W) :
  state (result h (main cfg 0) w) = S_INIT /\
  state (result h (main cfg (S n)) w) <> S_INIT.
Proof.
  split; [reflexivity |].
  rewrite main_snoc_result.
  pose proof (iteration_may_follow h cfg (result h (main cfg n) w)
                (world_after h (main cfg n) w)) as Hm.
  intros Hi. rewrite Hi in Hm.
  now destruct (state (result h (main cfg n) w)).
Qed.

(** ** NO_MORE and NO_PROGRAM *)

Section Exhausted.

Context {W : Type} (h : handler W) (cfg : BuildConfig).

Lemma processing_exhausted (l : Locals) (w : W) :
  state l = S_NO_MORE \/ state l = S_NO_PROGRAM ->
  run h (processing cfg l) w = (l, w, []).
Proof.
  intros Hs. unfold processing.
  destruct Hs as [Hs | Hs]; rewrite Hs; reflexivity.
Qed.

Lemma iteration_exhausted (l : Locals) (w : W) :
  state l = S_NO_MORE \/ state l = S_NO_PROGRAM ->
  let l' := result h (iteration cfg l) w in
  state l' = (if sleep_check_fires h cfg l w then S_SLEEP else state l) /\
  sleeptimer l' = sleeptimer l /\ success l' = success l.
Proof.
  intros Hs. cbv zeta.
  destruct (after_ticks_frame h cfg l w) as (Hst & Hsu & Hsl).
  assert (Hs1 : state (after_ticks h cfg l w) = S_NO_MORE
                \/ state (after_ticks h cfg l w) = S_NO_PROGRAM)
    by (rewrite Hst; exact Hs).
  assert (Hp : result h (processing cfg (after_ticks h cfg l w))
                 (world_at_processing h cfg l w) = after_ticks h cfg l w)
    by (unfold result; now rewrite processing_exhausted).
  split; [| split].
  - rewrite iteration_state, Hp, Hst. reflexivity.
  - rewrite iteration_result.
    destruct (go_to_sleep_frame h cfg
                (result h (body_before_sleep_check cfg l) w)
                (world_after h (body_before_sleep_check cfg l) w))
      as (_ & _ & Hg & _).
    cbv zeta in Hg. rewrite Hg, body_before_sleep_check_result, Hp.
    exact Hsl.
  - apply iteration_success.
    destruct Hs as [Hs | Hs]; rewrite Hs; discriminate.
Qed.

End Exhausted.

(** X3: in NO_MORE and NO_PROGRAM the second [switch] makes no call and
    changes nothing, so no key press is seen and [sleeptimer] is never
    refreshed: pass after pass the mode, [sleeptimer] and [success] stay as
    they are until a sleep check fires, and the only way out is SLEEP. *)
Theorem exhausted_modes_left_only_through_sleep {W} (h : handler W) cfg
    (l : Locals) (w : W) (n : nat) :
  state l = S_NO_MORE \/ state l = S_NO_PROGRAM ->
  run h (processing cfg l) w = (l, w, []) /\
  ((state (result h (loop cfg n l) w) = state l /\
    sleeptimer (result h (loop cfg n l) w) = sleeptimer l /\
    success (result h (loop cfg n l) w) = success l)
   \/
   exists k : nat,
     (k < n)%nat /\ state (result h (loop cfg (S k) l) w) = S_SLEEP).
Proof.
  intros Hs. split; [now apply processing_exhausted |].
  induction n as [| n IH].
  - left. repeat split.
  - destruct IH as [(Hst & Hsl & Hsu) | (k & Hk & Hsleep)].
    + assert (Hs' : state (result h (loop cfg n l) w) = S_NO_MORE
                    \/ state (result h (loop cfg n l) w) = S_NO_PROGRAM)
        by (rewrite Hst; exact Hs).
      destruct (iteration_exhausted h cfg _ (world_after h (loop cfg n l) w)
                  Hs') as (Ps & Pl & Pu).
      rewrite <- loop_snoc_result in Ps, Pl, Pu.
      destruct (sleep_check_fires h cfg (result h (loop cfg n l) w)
                  (world_after h (loop cfg n l) w)).
      * right. exists n. split; [lia | exact Ps].
      * left. repeat split; congruence.
    + right. exists k. split; [lia | exact Hsleep].
Qed.

Lemma exhausted_modes_left_only_through_sleep_witness :
  (state (fresh_locals S_NO_MORE) = S_NO_MORE \/
   state (fresh_locals S_NO_MORE) = S_NO_PROGRAM) /\
  run replay (processing bench_config (fresh_locals S_NO_MORE)) [0; 0; 0] =
    (fresh_locals S_NO_MORE, [0; 0; 0], []) /\
  ((state (result replay (loop bench_config 3 (fresh_locals S_NO_MORE))
             [0; 0; 0; 0; 0; 245]) = S_NO_MORE /\
    sleeptimer (result replay (loop bench_config 3 (fresh_locals S_NO_MORE))
                  [0; 0; 0; 0; 0; 245]) = 0 /\
    success (result replay (loop bench_config 3 (fresh_locals S_NO_MORE))
               [0; 0; 0; 0; 0; 245]) = 1)
   \/
   exists k : nat,
     (k < 3)%nat /\
     state (result replay (loop bench_config (S k) (fresh_locals S_NO_MORE))
              [0; 0; 0; 0; 0; 245]) = S_SLEEP).
Proof.
  split; [left; reflexivity |].
  split.
  - exact (proj1 (exhausted_modes_left_only_through_sleep replay bench_config
                    (fresh_locals S_NO_MORE) [0; 0; 0] 0
                    (or_introl eq_refl))).
  - exact (proj2 (exhausted_modes_left_only_through_sleep replay bench_config
                    (fresh_locals S_NO_MORE) [0; 0; 0; 0; 0; 245] 3
                    (or_introl eq_refl))).
Defined.

(** ** Which collaborator is consulted in which mode *)

Section Consulted.

Context {W : Type} (h : handler W) (cfg : BuildConfig).

Lemma tick_bookkeeping_consults (l : Locals) (w : W) :
  let tr := trace h (tick_bookkeeping cfg l) w in
  filter polls_key tr = [] /\ filter runs_script tr = [] /\
  filter halts_cpu tr = [] /\
  count_calls advances_debounce tr =
    if answer h (clock_getTickerFastDiff (ticker10MS l))
         (world_after h (slow_ticks cfg l) w) >? CLOCK_TICKER_FAST_10MS cfg
    then 1%nat else 0%nat.
Proof.
  cbv zeta. unfold tick_bookkeeping. rewrite trace_bind.
  destruct (slow_ticks_frame h cfg l w) as (_ & _ & _ & _ & Ht).
  cbv zeta in Ht. unfold count_calls. rewrite !filter_app.
  assert (Hslow : forall p, In p [polls_key; runs_script; halts_cpu;
                                   advances_debounce] ->
                  filter p (trace h (slow_ticks cfg l) w) = []).
  { intros p Hp. unfold slow_ticks.
    simpl in Hp. destruct Hp as [<- | [<- | [<- | [<- | []]]]];
      run_calls; split_ifs; reflexivity. }
  rewrite !Hslow by (simpl; auto). cbn [app].
  set (l1 := result h (slow_ticks cfg l) w) in *.
  set (w1 := world_after h (slow_ticks cfg l) w) in *.
  rewrite <- Ht.
  unfold fast_ticks. run_calls. split_ifs; repeat split.
Qed.

Lemma signaling_consults (l : Locals) (w : W) :
  let tr := trace h (signaling cfg l) w in
  filter polls_key tr = [] /\ filter runs_script tr = [] /\
  filter halts_cpu tr = [] /\ filter advances_debounce tr = [].
Proof.
  cbv zeta. unfold signaling, buzzer_output, led_signaling, programming_leds.
  destruct (state l); run_calls; split_ifs; repeat split.
Qed.

Lemma go_to_sleep_consults (l : Locals) (w : W) :
  let tr := trace h (go_to_sleep cfg l) w in
  filter polls_key tr = [] /\ filter runs_script tr = [] /\
  filter halts_cpu tr = [] /\ filter advances_debounce tr = [].
Proof.
  cbv zeta. rewrite go_to_sleep_trace.
  match goal with |- context [if ?c then _ else _] => destruct c end;
    repeat split.
Qed.

Lemma processing_consults (l : Locals) (w : W) :
  let tr := trace h (processing cfg l) w in
  count_calls polls_key tr =
    (if state_eqb (state l) S_IDLE then
       if (answer h (get_key_press (Z.shiftl 1 (IO_SWITCH cfg))) w =? 0)%Z
       then 2 else 1
     else 0)%nat /\
  count_calls runs_script tr =
    (if state_eqb (state l) S_PROGRAMMING then 1 else 0)%nat /\
  count_calls halts_cpu tr =
    (if state_eqb (state l) S_SLEEP then 1 else 0)%nat /\
  filter advances_debounce tr = [].
Proof.
  cbv zeta. unfold processing, sleep_and_wake, any_key_press, count_calls.
  destruct (state l); run_calls; split_ifs; repeat split.
Qed.

End Consulted.

(** The calls of a pass, by kind. *)
Lemma iteration_consults {W} (h : handler W) cfg (l : Locals)
    (w : W) :
  let tr := trace h (iteration cfg l) w in
  count_calls polls_key tr =
    (if state_eqb (state l) S_IDLE then
       if (answer h (get_key_press (Z.shiftl 1 (IO_SWITCH cfg)))
             (world_at_processing h cfg l w) =? 0)%Z
       then 2 else 1
     else 0)%nat /\
  count_calls runs_script tr =
    (if state_eqb (state l) S_PROGRAMMING then 1 else 0)%nat /\
  count_calls halts_cpu tr =
    (if state_eqb (state l) S_SLEEP then 1 else 0)%nat /\
  count_calls advances_debounce tr =
    (if (answer h (clock_getTickerFastDiff (ticker10MS l))
           (world_after h (slow_ticks cfg l) w)
         >? CLOCK_TICKER_FAST_10MS cfg)%Z
     then 1 else 0)%nat.
Proof.
  cbv zeta.
  rewrite iteration_trace, body_before_sleep_check_trace.
  destruct (tick_bookkeeping_consults h cfg l w) as (T1 & T2 & T3 & T4).
  destruct (signaling_consults h cfg (after_ticks h cfg l w)
              (world_at_render h cfg l w)) as (S1 & S2 & S3 & S4).
  destruct (processing_consults h cfg (after_ticks h cfg l w)
              (world_at_processing h cfg l w)) as (P1 & P2 & P3 & P4).
  destruct (go_to_sleep_consults h cfg
              (result h (body_before_sleep_check cfg l) w)
              (world_after h (body_before_sleep_check cfg l) w))
    as (G1 & G2 & G3 & G4).
  destruct (after_ticks_frame h cfg l w) as (Hst & _).
  cbv zeta in *. rewrite Hst in P1, P2, P3.
  unfold count_calls in *.
  rewrite !filter_app, !length_app.
  rewrite T1, T2, T3, S1, S2, S3, S4, P4, G1, G2, G3, G4.
  cbn [length Nat.add]. rewrite !Nat.add_0_r.
  repeat split; assumption.
Qed.

(** X4: a pass polls the switches only when it starts in IDLE (the external
    switch only if the primary one reports no press), runs the script engine
    exactly once when it starts in PROGRAMMING and never otherwise, halts the
    processor exactly once when it starts in SLEEP and never otherwise, and
    advances the debounce state exactly once when a fast tick has elapsed and
    never otherwise. *)
Theorem collaborators_consulted_by_mode {W} (h : handler W) cfg (l : Locals)
    (w : W) :
  let tr := trace h (iteration cfg l) w in
  count_calls polls_key tr =
    (if state_eqb (state l) S_IDLE then
       if (answer h (get_key_press (Z.shiftl 1 (IO_SWITCH cfg)))
             (world_at_processing h cfg l w) =? 0)%Z
       then 2 else 1
     else 0)%nat /\
  count_calls runs_script tr =
    (if state_eqb (state l) S_PROGRAMMING then 1 else 0)%nat /\
  count_calls halts_cpu tr =
    (if state_eqb (state l) S_SLEEP then 1 else 0)%nat /\
  count_calls advances_debounce tr =
    (if (answer h (clock_getTickerFastDiff (ticker10MS l))
           (world_after h (slow_ticks cfg l) w)
         >? CLOCK_TICKER_FAST_10MS cfg)%Z
     then 1 else 0)%nat.
Proof. apply iteration_consults. Qed.

(** X14: the script engine is never run without the switches having been
    polled first: from reset on, the number of runs of the script engine,
    counting one that is due because the mode is PROGRAMMING, never exceeds
    the number of key polls. *)
Theorem every_programming_run_follows_a_key_poll {W} (h : handler W) cfg
    (n : nat) (w : W) :
  (count_calls runs_script (trace h (main cfg n) w)
   + (if state_eqb (state (result h (main cfg n) w)) S_PROGRAMMING
      then 1 else 0)
   <= count_calls polls_key (trace h (main cfg n) w))%nat.
Proof.
  induction n as [| n IH].
  - unfold main, main_init. run_calls. cbn. lia.
  - rewrite main_snoc_trace, main_snoc_result.
    unfold count_calls in *. rewrite !filter_app, !length_app.
    set (l := result h (main cfg n) w) in *.
    set (w1 := world_after h (main cfg n) w) in *.
    destruct (iteration_consults h cfg l w1) as (Hk & Hr & _).
    cbv zeta in Hk, Hr. unfold count_calls in Hk, Hr. rewrite Hk, Hr.
    pose proof (iteration_may_follow h cfg l w1) as Hm.
    destruct (state l);
      destruct (state (result h (iteration cfg l) w1));
      try discriminate Hm; cbn [state_eqb] in *;
      try destruct (_ =? 0)%Z; lia.
Qed.

(** ** Global interrupts and the way into sleep *)

Lemma irq_stays_disabled (tr : list Event) (o : Outputs) :
  forallb (fun e => negb (enables_irq e)) tr = true ->
  irq_enabled o = false ->
  irq_enabled (outputs_after tr o) = false.
Proof.
  unfold outputs_after.
  revert o; induction tr as [| e tr IH]; intros o Hn Ho; simpl in *; auto.
  apply andb_true_iff in Hn. destruct Hn as [He Htr].
  apply IH; [exact Htr |].
  destruct e as [T c]; destruct c; simpl in *; auto; discriminate.
Qed.

Lemma forallb_firstn {A} (p : A -> bool) (k : nat) (xs : list A) :
  forallb p xs = true -> forallb p (firstn k xs) = true.
Proof.
  revert k; induction xs as [| x xs IH]; intros k Hx; destruct k; simpl in *;
    auto.
  apply andb_true_iff in Hx. destruct Hx as [Hp Hxs].
  now rewrite Hp, IH.
Qed.

Section Interrupts.

Context {W : Type} (h : handler W) (cfg : BuildConfig).

Lemma tick_bookkeeping_no_sei (l : Locals) (w : W) :
  forallb (fun e => negb (enables_irq e)) (trace h (tick_bookkeeping cfg l) w)
  = true.
Proof.
  unfold tick_bookkeeping, slow_ticks, fast_ticks.
  run_calls. split_ifs; reflexivity.
Qed.

Lemma signaling_no_sei (l : Locals) (w : W) :
  forallb (fun e => negb (enables_irq e)) (trace h (signaling cfg l) w) = true.
Proof.
  unfold signaling, buzzer_output, led_signaling, programming_leds.
  destruct (state l); run_calls; split_ifs; reflexivity.
Qed.

(** The call that ends a pass is [sei], unless the sleep check fired. *)
Lemma iteration_irq (l : Locals) (w : W) (o : Outputs) :
  irq_enabled (outputs_after (trace h (iteration cfg l) w) o) =
  negb (sleep_check_fires h cfg l w).
Proof.
  rewrite iteration_trace, outputs_after_app, go_to_sleep_trace.
  fold (sleep_check_fires h cfg l w).
  destruct (sleep_check_fires h cfg l w); reflexivity.
Qed.

Lemma iteration_sleep_iff_fires (l : Locals) (w : W) :
  state_eqb (state (result h (iteration cfg l) w)) S_SLEEP =
  sleep_check_fires h cfg l w.
Proof.
  rewrite iteration_state.
  destruct (sleep_check_fires h cfg l w); [reflexivity |].
  pose proof (processing_not_sleep h cfg (after_ticks h cfg l w)
                (world_at_processing h cfg l w)) as Hn.
  now destruct (state (result h (processing cfg (after_ticks h cfg l w))
                         (world_at_processing h cfg l w))).
Qed.

End Interrupts.

(** X5: from reset on, at the end of the initialisation and of every pass,
    global interrupts are disabled exactly when the mode is SLEEP: a pass
    that decides to sleep hands over with interrupts still off, every other
    pass ends with [sei]. *)
Theorem interrupts_off_exactly_when_sleep_is_due {W} (h : handler W) cfg
    (n : nat) (w : W) (o : Outputs) :
  irq_enabled (outputs_after (trace h (main cfg n) w) o) =
  negb (state_eqb (state (result h (main cfg n) w)) S_SLEEP).
Proof.
  destruct n as [| n].
  - reflexivity.
  - rewrite main_snoc_trace, main_snoc_result, outputs_after_app.
    now rewrite iteration_irq, iteration_sleep_iff_fires.
Qed.

(** X6: a pass that starts in SLEEP with global interrupts disabled keeps
    them disabled through the tick bookkeeping, the rendering and the arming
    of the wake sources, up to the [sei] that comes immediately before
    [sleep_cpu].  When the processor halts, the LEDs and the buzzer are off
    and INT0, INT1, the sleep enable bit and global interrupts are on,
    whatever the outputs were before; when the pass ends the sleep enable
    bit is off again. *)
Theorem sleep_entry_is_dark_and_uninterrupted {W} (h : handler W) cfg
    (l : Locals) (w : W) (o : Outputs) :
  state l = S_SLEEP ->
  irq_enabled o = false ->
  let before_sei :=
    trace h (tick_bookkeeping cfg l) w
    ++ trace h (signaling cfg (after_ticks h cfg l w))
         (world_at_render h cfg l w)
    ++ [Ev hal_enableINT0; Ev hal_enableINT1; Ev sleep_enable]
    ++ (if HAS_DYNAMIC_BOD_CONTROL cfg =? 1 then [Ev sleep_bod_disable]
        else []) in
  let at_halt := outputs_after (before_sei ++ [Ev sei]) o in
  (exists rest : list Event,
      trace h (iteration cfg l) w =
      before_sei ++ [Ev sei; Ev sleep_cpu; Ev sleep_disable] ++ rest) /\
  (forall k : nat,
      irq_enabled (outputs_after (firstn k before_sei) o) = false) /\
  signals at_halt = (false, false, false, false) /\
  int0_enabled at_halt = true /\ int1_enabled at_halt = true /\
  sleep_enabled at_halt = true /\ irq_enabled at_halt = true /\
  sleep_enabled (outputs_after (trace h (iteration cfg l) w) o) = false.
Proof.
  intros Hs Ho. cbv zeta.
  destruct (after_ticks_frame h cfg l w) as (Hst & _).
  rewrite Hs in Hst.
  assert (Hproc : trace h (processing cfg (after_ticks h cfg l w))
                    (world_at_processing h cfg l w) =
                  [Ev hal_enableINT0; Ev hal_enableINT1; Ev sleep_enable]
                  ++ (if HAS_DYNAMIC_BOD_CONTROL cfg =? 1
                      then [Ev sleep_bod_disable] else [])
                  ++ [Ev sei; Ev sleep_cpu; Ev sleep_disable;
                      Ev clock_getTickerSlow]).
  { unfold processing. rewrite Hst. unfold sleep_and_wake.
    destruct (HAS_DYNAMIC_BOD_CONTROL cfg =? 1); reflexivity. }
  assert (Htrace : trace h (iteration cfg l) w =
            (trace h (tick_bookkeeping cfg l) w
             ++ trace h (signaling cfg (after_ticks h cfg l w))
                  (world_at_render h cfg l w)
             ++ [Ev hal_enableINT0; Ev hal_enableINT1; Ev sleep_enable]
             ++ (if HAS_DYNAMIC_BOD_CONTROL cfg =? 1
                 then [Ev sleep_bod_disable] else []))
            ++ [Ev sei; Ev sleep_cpu; Ev sleep_disable]
            ++ Ev clock_getTickerSlow
               :: trace h
                    (go_to_sleep cfg
                       (result h (body_before_sleep_check cfg l) w))
                    (world_after h (body_before_sleep_check cfg l) w)).
  { rewrite iteration_trace, body_before_sleep_check_trace, Hproc.
    repeat rewrite <- app_assoc. reflexivity. }
  pose proof (signaling_signals h cfg (after_ticks h cfg l w)
                (world_at_render h cfg l w)
                (outputs_after (trace h (tick_bookkeeping cfg l) w) o))
    as Hsig.
  rewrite Hst in Hsig. unfold signals in Hsig.
  split; [eexists; exact Htrace |].
  split.
  { intros k. apply irq_stays_disabled; [| exact Ho].
    apply forallb_firstn. rewrite !forallb_app.
    rewrite tick_bookkeeping_no_sei, signaling_no_sei.
    destruct (HAS_DYNAMIC_BOD_CONTROL cfg =? 1); reflexivity. }
  split.
  { rewrite <- !app_assoc, !outputs_after_app.
    unfold signals.
    destruct (HAS_DYNAMIC_BOD_CONTROL cfg =? 1); simpl; exact Hsig. }
  rewrite Htrace.
  rewrite <- !app_assoc, !outputs_after_app.
  rewrite go_to_sleep_trace.
  destruct (HAS_DYNAMIC_BOD_CONTROL cfg =? 1);
    match goal with |- context [if ?c then _ else _] => destruct c end;
    repeat split.
Qed.

Lemma sleep_entry_is_dark_and_uninterrupted_witness :
  state (fresh_locals S_SLEEP) = S_SLEEP /\
  irq_enabled all_off = false /\
  signals
    (outputs_after
       (trace replay (tick_bookkeeping bench_config (fresh_locals S_SLEEP)) []
        ++ trace replay
             (signaling bench_config
                (after_ticks replay bench_config (fresh_locals S_SLEEP) []))
             (world_at_render replay bench_config (fresh_locals S_SLEEP) [])
        ++ [Ev hal_enableINT0; Ev hal_enableINT1; Ev sleep_enable]
        ++ [Ev sleep_bod_disable] ++ [Ev sei]) all_off)
  = (false, false, false, false).
Proof.
  split; [reflexivity |]. split; [reflexivity |].
  pose proof (sleep_entry_is_dark_and_uninterrupted replay bench_config
                (fresh_locals S_SLEEP) [] all_off eq_refl eq_refl) as H.
  cbv zeta in H.
  rewrite <- !app_assoc in H.
  exact (proj1 (proj2 (proj2 H))).
Defined.

(** ** Invariants of the locals from reset on *)

Section FromReset.

Context {W : Type} (h : handler W) (cfg : BuildConfig).

Lemma iteration_countdown_bound (l : Locals) (w : W) :
  0 <= buzzer l <= 60 -> 0 <= buzzer (result h (iteration cfg l) w) <= 60.
Proof.
  intros Hb.
  assert (Ht : 0 <= buzzer (after_ticks h cfg l w) <= 60).
  { unfold after_ticks, tick_bookkeeping. rewrite result_bind.
    rewrite fast_ticks_buzzer.
    destruct (slow_ticks_frame h cfg l w) as (_ & _ & Hz & _).
    cbv zeta in Hz. rewrite Hz.
    destruct (_ >? CLOCK_TICKER_FAST_10MS cfg); simpl; [| exact Hb].
    destruct (Z.gtb_spec (buzzer l) 0); [| exact Hb].
    rewrite to_uint8_small by (unfold uint8; lia). lia. }
  rewrite iteration_result.
  destruct (go_to_sleep_frame h cfg
              (result h (body_before_sleep_check cfg l) w)
              (world_after h (body_before_sleep_check cfg l) w))
    as (_ & Hg & _).
  cbv zeta in Hg. rewrite Hg, body_before_sleep_check_result.
  pose proof (processing_buzzer h cfg (after_ticks h cfg l w)
                (world_at_processing h cfg l w)) as Hp.
  cbv zeta in Hp. lia.
Qed.

Lemma slow_ticks_toggle (l : Locals) (w : W) :
  toggle250MS l = 0 \/ toggle250MS l = 1 ->
  toggle250MS (result h (slow_ticks cfg l) w) =
  if answer h (clock_getTickerSlowDiff (ticker250MS l)) w
       >? CLOCK_TICKER_SLOW_250MS cfg
  then 1 - toggle250MS l else toggle250MS l.
Proof.
  intros Ht. unfold slow_ticks. run_calls.
  split_ifs; [| reflexivity].
  destruct Ht as [-> | ->]; reflexivity.
Qed.

Lemma iteration_toggle (l : Locals) (w : W) :
  toggle250MS l = 0 \/ toggle250MS l = 1 ->
  toggle250MS (result h (iteration cfg l) w) = 0
  \/ toggle250MS (result h (iteration cfg l) w) = 1.
Proof.
  intros Ht. rewrite iteration_result.
  destruct (go_to_sleep_frame h cfg
              (result h (body_before_sleep_check cfg l) w)
              (world_after h (body_before_sleep_check cfg l) w))
    as (_ & _ & _ & Hg & _).
  cbv zeta in Hg. rewrite Hg, body_before_sleep_check_result.
  destruct (processing_frame h cfg (after_ticks h cfg l w)
              (world_at_processing h cfg l w)) as (Hp & _).
  cbv zeta in Hp. rewrite Hp.
  unfold after_ticks, tick_bookkeeping. rewrite result_bind.
  destruct (fast_ticks_frame h cfg (result h (slow_ticks cfg l) w)
              (world_after h (slow_ticks cfg l) w)) as (_ & _ & _ & Hf & _).
  cbv zeta in Hf. rewrite Hf, slow_ticks_toggle by exact Ht.
  destruct (_ >? CLOCK_TICKER_SLOW_250MS cfg); lia.
Qed.

End FromReset.

(** X7: from reset on the buzzer countdown never exceeds 60, the longest of
    the three durations the loop assigns, whatever the collaborators answer
    and however many passes have run. *)
Theorem buzzer_countdown_at_most_60 {W} (h : handler W) cfg (n : nat)
    (w : W) :
  0 <= buzzer (result h (main cfg n) w) <= 60.
Proof.
  induction n as [| n IH].
  - unfold main, main_init. run_calls. lia.
  - rewrite main_snoc_result. now apply iteration_countdown_bound.
Qed.

(** X8: from reset on the toggle flag is 0 or 1, and the slow-tick
    bookkeeping of the next pass flips it exactly when more than
    CLOCK_TICKER_SLOW_250MS slow ticks have elapsed since [ticker250MS]. *)
Theorem toggle_flag_is_a_bit {W} (h : handler W) cfg (n : nat) (w w' : W) :
  let l := result h (main cfg n) w in
  (toggle250MS l = 0 \/ toggle250MS l = 1) /\
  toggle250MS (result h (slow_ticks cfg l) w') =
    (if answer h (clock_getTickerSlowDiff (ticker250MS l)) w'
          >? CLOCK_TICKER_SLOW_250MS cfg
     then 1 - toggle250MS l else toggle250MS l).
Proof.
  cbv zeta.
  assert (Hbit : toggle250MS (result h (main cfg n) w) = 0
                 \/ toggle250MS (result h (main cfg n) w) = 1).
  { induction n as [| n IH].
    - left. reflexivity.
    - rewrite main_snoc_result. now apply iteration_toggle. }
  split; [exact Hbit | now apply slow_ticks_toggle].
Qed.

(** ** Blink patterns *)

Lemma level_c_not (v : Z) : level (c_not v) = negb (level v).
Proof. unfold level, c_not. now destruct (v =? 0). Qed.

(** X9: whatever the toggle, the countdown and the build flags are, the
    rendering leaves green and red equal in NO_MORE (they blink in phase) and
    opposite in NO_PROGRAM (they alternate); in PROGRAMMING green is off and
    exactly one of yellow and red is on; and in no mode are yellow and red
    on together. *)
Theorem blink_phases {W} (h : handler W) cfg (l : Locals) (w : W)
    (o : Outputs) :
  let shown := outputs_after (trace h (signaling cfg l) w) o in
  match state l with
  | S_NO_MORE => led_green shown = led_red shown /\ led_yellow shown = false
  | S_NO_PROGRAM =>
      led_green shown = negb (led_red shown) /\ led_yellow shown = false
  | S_PROGRAMMING =>
      led_green shown = false /\ led_yellow shown = negb (led_red shown)
  | _ => led_yellow shown = false
  end /\
  led_yellow shown && led_red shown = false.
Proof.
  cbv zeta.
  pose proof (signaling_signals h cfg l w o) as Hr.
  unfold signals in Hr.
  set (shown := outputs_after (trace h (signaling cfg l) w) o) in *.
  destruct (led_green shown), (led_yellow shown), (led_red shown),
    (state l);
    repeat match type of Hr with
      | context [if ?c then _ else _] => destruct c
      end;
    try rewrite level_c_not in Hr;
    try destruct (level (toggle250MS l));
    try discriminate Hr; repeat split.
Qed.

(** X10: in a build that uses the yellow LED (neither
    COMPATIBILITY_MODE_ISPNUB_ORIGINAL nor DONT_USE_YELLOW_LED is 1) red is
    for errors only, as the change history of [main.c] says: at the end of a
    pass it is on only in IDLE after a programming run that did not succeed,
    in NO_MORE and in NO_PROGRAM, and then in the on phase of the toggle. *)
Theorem red_led_only_for_errors {W} (h : handler W) cfg (l : Locals) (w : W)
    (o : Outputs) :
  COMPATIBILITY_MODE_ISPNUB_ORIGINAL cfg <> 1 ->
  DONT_USE_YELLOW_LED cfg <> 1 ->
  let l1 := after_ticks h cfg l w in
  led_red (outputs_after (trace h (iteration cfg l) w) o) =
  match state l with
  | S_IDLE => negb (success l =? 1) && level (toggle250MS l1)
  | S_NO_MORE | S_NO_PROGRAM => level (toggle250MS l1)
  | S_INIT | S_WAKEUP | S_PROGRAMMING | S_SLEEP => false
  end.
Proof.
  intros Hc Hd. cbv zeta.
  apply Z.eqb_neq in Hc. apply Z.eqb_neq in Hd.
  pose proof (iteration_signals h cfg l w o) as Hi.
  rewrite signaling_signals in Hi.
  destruct (after_ticks_frame h cfg l w) as (Hst & Hsu & _).
  rewrite Hst, Hsu, Hc, Hd in Hi.
  unfold signals in Hi. cbn [orb] in Hi.
  destruct (led_red (outputs_after (trace h (iteration cfg l) w) o)),
    (state l);
    repeat match type of Hi with
      | context [if ?c then _ else _] => destruct c
      end;
    try destruct (level (toggle250MS (after_ticks h cfg l w)));
    try discriminate Hi; reflexivity.
Qed.

Lemma red_led_only_for_errors_witness :
  COMPATIBILITY_MODE_ISPNUB_ORIGINAL bench_config <> 1 /\
  DONT_USE_YELLOW_LED bench_config <> 1 /\
  led_red (outputs_after
             (trace replay
                (iteration bench_config
                   (set_success 0 (fresh_locals S_IDLE))) [8])
             all_off) = true.
Proof.
  split; [discriminate |]. split; [discriminate |].
  apply (red_led_only_for_errors replay bench_config
           (set_success 0 (fresh_locals S_IDLE)) [8] all_off); discriminate.
Defined.

(** ** Refreshing the inactivity reference *)

Section Refresh.

Context {W : Type} (h : handler W) (cfg : BuildConfig).

(** In SLEEP, in PROGRAMMING and in IDLE on a key press the second [switch]
    reads the slow ticker into [sleeptimer] as its last call, or as its last
    but one before a read of the cycle counter. *)
Lemma processing_refreshes_sleeptimer (l : Locals) (w : W) :
  state l = S_SLEEP \/ state l = S_PROGRAMMING \/
  (state l = S_IDLE /\ result h (any_key_press cfg) w = true) ->
  exists w0 : W,
    sleeptimer (result h (processing cfg l) w) =
      to_uint8 (answer h clock_getTickerSlow w0) /\
    (world_after h (processing cfg l) w = after h clock_getTickerSlow w0
     \/ world_after h (processing cfg l) w =
        after h counter_read (after h clock_getTickerSlow w0)).
Proof.
  intros [Hs | [Hs | [Hs Hk]]]; unfold processing; rewrite Hs.
  - unfold sleep_and_wake.
    destruct (HAS_DYNAMIC_BOD_CONTROL cfg =? 1); run_calls;
      eexists; split; [reflexivity | left; reflexivity
                      | reflexivity | left; reflexivity].
  - run_calls. split_ifs; eexists; split;
      solve [reflexivity | left; reflexivity].
  - rewrite result_bind, world_after_bind, Hk.
    run_calls. split_ifs; eexists; split;
      solve [reflexivity | right; reflexivity].
Qed.

End Refresh.

(** X11: if the clock keeps what the loop counts on, namely that a reference
    just read from the slow ticker is not yet CLOCK_TICKER_SLOW_8S old at the
    sleep check of the same pass, then a pass that wakes from sleep, that runs
    the script engine, or that sees a key press in IDLE never ends in SLEEP:
    the device does not fall asleep right after the activity, and the mode
    the second [switch] chose (WAKEUP, the outcome of the programming run,
    PROGRAMMING or NO_MORE after the key press) is the mode the pass ends
    in. *)
Theorem no_sleep_right_after_activity {W} (h : handler W) cfg (l : Locals)
    (w : W) :
  fresh_reference_not_stale h cfg ->
  state l = S_SLEEP \/ state l = S_PROGRAMMING \/
  (state l = S_IDLE /\
   result h (any_key_press cfg) (world_at_processing h cfg l w) = true) ->
  sleep_check_fires h cfg l w = false /\
  state (result h (iteration cfg l) w) <> S_SLEEP /\
  state (result h (iteration cfg l) w) =
    state (result h (processing cfg (after_ticks h cfg l w))
             (world_at_processing h cfg l w)).
Proof.
  intros Hclock Hact.
  assert (Hfires : sleep_check_fires h cfg l w = false).
  { unfold sleep_check_fires.
    rewrite body_before_sleep_check_result.
    unfold body_before_sleep_check.
    rewrite !world_after_bind.
    fold (after_ticks h cfg l w). fold (world_at_render h cfg l w).
    fold (world_at_processing h cfg l w).
    destruct (after_ticks_frame h cfg l w) as (Hst & _).
    rewrite <- Hst in Hact.
    destruct (processing_refreshes_sleeptimer h cfg (after_ticks h cfg l w)
                (world_at_processing h cfg l w) Hact)
      as (w0 & Hsl & Hw).
    rewrite Hsl.
    destruct (Hclock w0) as [H1 H2]. cbv zeta in H1, H2.
    rewrite Z.gtb_ltb. apply Z.ltb_ge.
    destruct Hw as [-> | ->]; assumption. }
  split; [exact Hfires |].
  split; [| now rewrite iteration_state, Hfires].
  intros Hs.
  pose proof (iteration_sleep_iff_fires h cfg l w) as Hiff.
  rewrite Hs, Hfires in Hiff. discriminate.
Qed.

Lemma wall_clock_fresh_reference :
  fresh_reference_not_stale wall_clock bench_config.
Proof.
  intros w. unfold answer, after, to_uint8.
  cbn [wall_clock fst snd CLOCK_TICKER_SLOW_8S bench_config].
  rewrite Z.mod_mod by lia.
  rewrite Zminus_mod_idemp_r, Z.sub_diag, Z.mod_0_l by lia. lia.
Qed.

Lemma no_sleep_right_after_activity_witness :
  fresh_reference_not_stale wall_clock bench_config /\
  (state (fresh_locals S_PROGRAMMING) = S_SLEEP \/
   state (fresh_locals S_PROGRAMMING) = S_PROGRAMMING \/
   (state (fresh_locals S_PROGRAMMING) = S_IDLE /\
    result wall_clock (any_key_press bench_config)
      (world_at_processing wall_clock bench_config
         (fresh_locals S_PROGRAMMING) 5000) = true)) /\
  sleep_check_fires wall_clock bench_config (fresh_locals S_PROGRAMMING) 5000
    = false /\
  state (result wall_clock
           (iteration bench_config (fresh_locals S_PROGRAMMING)) 5000)
    <> S_SLEEP /\
  state (result wall_clock
           (iteration bench_config (fresh_locals S_PROGRAMMING)) 5000)
    = S_IDLE.
Proof.
  split; [exact wall_clock_fresh_reference |].
  split; [right; left; reflexivity |].
  exact (no_sleep_right_after_activity wall_clock bench_config
           (fresh_locals S_PROGRAMMING) 5000 wall_clock_fresh_reference
           (or_intror (or_introl eq_refl))).
Defined.

(** X12: a sleep/wake cycle: a pass that starts in SLEEP and whose sleep check
    does not fire ends in WAKEUP; if the check of the next pass does not fire
    either, that pass ends in IDLE.  The WAKEUP pass does not refresh
    [sleeptimer] again, and [success] is the one from before the sleep. *)
Theorem wake_up_leads_to_idle {W} (h : handler W) cfg (l : Locals) (w : W) :
  state l = S_SLEEP ->
  let l1 := result h (iteration cfg l) w in
  let w1 := world_after h (iteration cfg l) w in
  let l2 := result h (loop cfg 2 l) w in
  sleep_check_fires h cfg l w = false ->
  sleep_check_fires h cfg l1 w1 = false ->
  state l1 = S_WAKEUP /\ state l2 = S_IDLE /\
  sleeptimer l2 = sleeptimer l1 /\ success l2 = success l.
Proof.
  intros Hs. cbv zeta. intros Hf1 Hf2.
  assert (H1 : state (result h (iteration cfg l) w) = S_WAKEUP).
  { rewrite iteration_state, Hf1.
    destruct (after_ticks_frame h cfg l w) as (Hst & _).
    unfold processing. rewrite Hst, Hs. unfold sleep_and_wake.
    destruct (HAS_DYNAMIC_BOD_CONTROL cfg =? 1); reflexivity. }
  assert (Hl2 : result h (loop cfg 2 l) w =
                result h (iteration cfg (result h (iteration cfg l) w))
                  (world_after h (iteration cfg l) w)).
  { rewrite loop_snoc_result.
    destruct (loop_snoc h cfg 0 l w) as (Hr & Hw & _).
    rewrite Hr, Hw. reflexivity. }
  rewrite Hl2.
  set (l1 := result h (iteration cfg l) w) in *.
  set (w1 := world_after h (iteration cfg l) w) in *.
  destruct (after_ticks_frame h cfg l1 w1) as (Hst & Hsu & Hsl).
  assert (Hp : result h (processing cfg (after_ticks h cfg l1 w1))
                 (world_at_processing h cfg l1 w1) =
               set_state S_IDLE (after_ticks h cfg l1 w1)).
  { unfold processing. rewrite Hst, H1. run_calls.
    destruct (_ =? 0)%N; reflexivity. }
  split; [exact H1 |].
  split; [rewrite iteration_state, Hf2, Hp; reflexivity |].
  split.
  - rewrite iteration_result.
    destruct (go_to_sleep_frame h cfg
                (result h (body_before_sleep_check cfg l1) w1)
                (world_after h (body_before_sleep_check cfg l1) w1))
      as (_ & _ & Hg & _).
    cbv zeta in Hg. rewrite Hg, body_before_sleep_check_result, Hp.
    exact Hsl.
  - rewrite iteration_success by (rewrite H1; discriminate).
    unfold l1. apply iteration_success. rewrite Hs. discriminate.
Qed.

Lemma wake_up_leads_to_idle_witness :
  state (fresh_locals S_SLEEP) = S_SLEEP /\
  sleep_check_fires wall_clock bench_config (fresh_locals S_SLEEP) 5000
    = false /\
  sleep_check_fires wall_clock bench_config
    (result wall_clock (iteration bench_config (fresh_locals S_SLEEP)) 5000)
    (world_after wall_clock (iteration bench_config (fresh_locals S_SLEEP))
       5000) = false /\
  state (result wall_clock (iteration bench_config (fresh_locals S_SLEEP))
           5000) = S_WAKEUP /\
  state (result wall_clock (loop bench_config 2 (fresh_locals S_SLEEP)) 5000)
    = S_IDLE /\
  sleeptimer (result wall_clock (loop bench_config 2 (fresh_locals S_SLEEP))
                5000)
    = sleeptimer (result wall_clock
                    (iteration bench_config (fresh_locals S_SLEEP)) 5000) /\
  success (result wall_clock (loop bench_config 2 (fresh_locals S_SLEEP))
             5000) = success (fresh_locals S_SLEEP).
Proof.
  split; [reflexivity |]. split; [reflexivity |]. split; [reflexivity |].
  exact (wake_up_leads_to_idle wall_clock bench_config (fresh_locals S_SLEEP)
           5000 eq_refl eq_refl eq_refl).
Defined.

(** ** Every pass drives every signal *)

(** X13: a pass sets all three LEDs and the buzzer, so what they show at its
    end does not depend on what they showed before it: no output is left
    over from an earlier mode. *)
Theorem rendering_overwrites_all_signals {W} (h : handler W) cfg
    (l : Locals) (w : W) (o o' : Outputs) :
  signals (outputs_after (trace h (iteration cfg l) w) o) =
  signals (outputs_after (trace h (iteration cfg l) w) o') /\
  signals (outputs_after (trace h (signaling cfg l) w) o) =
  signals (outputs_after (trace h (signaling cfg l) w) o').
Proof.
  split.
  - rewrite !iteration_signals. now rewrite !signaling_signals.
  - now rewrite !signaling_signals.
Qed.
